(* ===== verification/_CoqProject ===== *)
-Q . S2P
Prelude.v
PyFormat.v
PyStr.v
History.v
Chain.v
Generate.v
Config.v
App.v
Widgets.v
Sessions.v
