(* ===== verification/Prelude.v ===== *)
(** * A verification development of the "QnA Chatbot with Memory" script

    The repository is one Streamlit script, [src/app.py]. Streamlit executes it top to
    bottom on every user interaction (a "rerun"). Its parts:

    - configuration (lines 6-17): it reads [langchain_api_key] and [groq_api_key] from
      [st.secrets], raises [ValueError] when either is empty, and copies both into
      [os.environ];
    - the conversation history (line 20): a module-level Python list
      [conversation_history] of [(role, text)] pairs;
    - [generate_response] (lines 23-40): it builds a [ChatGroq] client, appends the
      user turn, builds a LangChain [ChatPromptTemplate] from a system turn plus the
      history, and invokes [prompt | llm | StrOutputParser()] with the input
      [{"question": question}]. On success it appends the assistant turn;
    - the page (lines 42-75): title, sidebar widgets, the rendered history, a form,
      and the branch that calls [generate_response] or writes
      "Please provide a question.".

    They interact through shared state: [generate_response] mutates the history
    that the page renders. ChatGroq reads [os.environ], which configuration writes.
    The script's behaviour also depends on the libraries it calls. Each of these is
    modelled from its documented behaviour where the script depends on it:
    - LangChain parses every message given to [from_messages] as a Python f-string
      template, the user's own text included;
    - [ChatGroq] reads its key from the environment variable [GROQ_API_KEY];
    - Streamlit exports root-level secrets to [os.environ] and re-executes the whole
      script, line 20 included, on every rerun.

    ** Files, in dependency order
    - [Prelude] (this file): Python exceptions [exn] and the result type [res]. A
      state monad [py] whose exceptions keep the mutations made before the raise, as
      Python's do, with the notations [let*], [;;;] and [let?] in [py_scope]. The
      tactics [py_simp] and [str_simp], the rewrite base [py], the resolution base
      [chat], and generic lemmas on lists, strings and [res_map].
    - [PyFormat]: the library code that line 31 and line 35 reach, modelled after
      CPython 3.12. This is not code of the repository, and it is not in the map of
      the manifest. [_string.formatter_parser] is MarkupIterator_next
      ([scan_literal], [markup_after], [markup_next]) with its one-pass parse_field
      ([scan_name], [scan_spec], [parse_field]), iterated by [formatter_parser] and
      [parse]. [string.Formatter._vformat] is [get_field], [convert_field],
      [format_field], [render_field], [vformat_loop], [vformat] and [format].
      [get_field] walks the rest of a field name with the [FieldNameIterator]
      ([field_name_next], [access_loop]). The [str] built-ins a field reaches
      ([repr], [ascii], [str.__format__], and what follows an attribute a [str]
      has) are the fields of a record [Builtins], a section parameter.
    - [PyStr]: those built-ins after CPython 3.12, also library code. [str.__format__]
      is [str_format]: [parse_internal_render_format_spec] over [get_integer] (with
      its [Py_ssize_t] overflow test), then [format_string_internal] with
      [calc_padding]. [repr] is [py_repr] and [ascii] is [py_ascii]. [py_builtins]
      is the [Builtins] they make; attribute access stays a parameter.
    - [History]: the session-store contract of spec section 4.1 as the class
      [SessionStore] with its laws [SessionStoreLaws]. It is implemented by the
      Python list ([conversation_history_init], [list_append], instance
      [py_list_store]).
    - [Chain]: LangChain's [from_messages] ([message_type_of_role],
      [template_of_turn]), [validate_input], [format_messages], [prompt_pipeline],
      and the client [ChatGroq(model=engine)] ([chat_groq], [chat_groq_init]).
    - [Generate]: the state [World] (os.environ, the history, the log of requests
      sent to the model) and [generate_response] in [py]. The completion service is
      a parameter [complete]. The file also holds successive calls [generate_seq].
    - [Config]: [secrets_get], [secrets_export] (Streamlit's export of secrets),
      [environ_set] and [startup] for lines 6-17.
    - [App]: the page elements, one execution of the script [run_script] on the
      widget values [UiInput], and reruns [run_session].
    - [Widgets]: what the widgets hold between runs ([WidgetState]) and the effect of
      one browser action ([widget_step]): sidebar changes rerun the script, typing in
      the form does not, and Submit reruns it once and clears the form
      ([clear_on_submit=True], line 64). [reachable] is the set of states a session
      reaches. [app_session] feeds the runs that a sequence of actions triggers to
      [run_session].
    - [Sessions]: any number of browser sessions, each with its own widget values,
      whose actions interleave in a [schedule] ([sessions_run]). [server] executes
      all the runs they trigger, in order, on one [World].

    ** Theorems (claims C1-C20 of the manifest)
    - Reruns (App): C1 [run_session_forgets]: every prompt over any sequence of
      interactions is the system message plus one human message, because line 20
      resets the history on every run (C18 ties that message to the question typed).
      C5 [run_script_page]: the rendered history is always empty. C6: an empty
      question never calls the model. C7: a missing or empty secret is fatal. C8:
      with the documented secrets only, every submission raises [GroqError].
    - [generate_response] (Generate): C2/C3 success and failure of the service, when
      the key is set and no text has braces. C4 [poisoned_session]: a turn with
      braces that do not form a [{question}] template makes every later call raise.
      C10 missing key. C11 growth of the transcript. C12 the sliders are ignored.
    - Configuration: C9 [startup_groq_key]: ChatGroq's key never comes from the two
      keys the script handles.
    - Widgets: C13 invariant of the reachable widget states. C14 every run reads the
      ranges of the spec's GenerationRequest. C15 a second Submit sends nothing. C16
      (liveness) from any state, a typed question reaches [generate_response]. C17
      sidebar changes never call the service.
    - Sessions: C18 [server_sessions_isolated]: over any interleaving of any
      number of sessions, every request is the system message and one question
      typed by the session that pressed Submit (spec section 5).
    - A question is a template (Generate, through PyFormat and PyStr): C19 a
      question [a{{b}}] reaches the model as [a{b}]. C20 a question
      [{question:ds}] makes the request as long as the width [ds] names, up to
      [2^63 - 1] characters, and a wider width raises [ValueError].

    ** Bounds and fuel
    [formatter_parser] and [vformat_loop] iterate [markup_next] with fuel. Each step
    consumes at least one character ([markup_next_length], from [parse_field_length]),
    so fuel [length s] is enough, and more fuel changes nothing
    ([formatter_parser_fuel_eq]). [access_loop] iterates [field_name_next] with fuel
    [length rest] for the same reason. [vformat] recurses into format specs on
    Python's [recursion_depth], which is 2 at the top, structurally, and raises
    "Max string recursion exceeded" below 0 as CPython does. [get_integer] keeps its
    accumulator at or below [PY_SSIZE_T_MAX = 2^63 - 1], the 64-bit build's bound,
    and its overflow test is proved exact ([overflow_test_iff]). [repr] and [ascii]
    are defined on code points below 256, the range of Rocq's [ascii]. Slider values
    are kept at the slider's step: the temperature in hundredths.

    ** Not modelled
    - The Groq service and model inference: the collaborator [complete] is any
      function of the client parameters and messages.
    - Streamlit's rendering, beyond the list of elements a run draws, and the session
      threads. Runs are executed one after another on the shared process state.
    - What follows an attribute that a [str] has ([{question.upper}]): [str()] of a
      bound method prints a memory address that cannot be predicted. This stays the
      parameter [b_attr]. Index access and missing attributes are modelled.
    - Code points above 255. [repr] keeps a printable one as it is and escapes
      others as [\u]/[\U], which the model has no characters for.
    - CPython's [MemoryError] for a width too large to allocate. The model builds
      the padded text.
    - A missing secrets file, and TOML secrets that are not strings.
    - Float arithmetic: slider values are rationals ([QArith_base.Q]) that the
      script only passes along.
    - The exact text of LangChain's and Groq's exception messages, kept only
      approximately ([str.__format__]'s are CPython's).
    - LangChain's "placeholder" role, which the script never uses. *)

From stdpp Require Export base list strings gmap.
From Stdlib Require Export Ascii.

(** Python exceptions that the script can raise, by class, with their message. *)
Inductive exn :=
| KeyError (msg : string)
| ValueError (msg : string)
| IndexError (msg : string)
| TypeError (msg : string)
| AttributeError (msg : string)
| GroqError (msg : string).

#[export] Instance exn_eq_dec : EqDecision exn.
Proof. solve_decision. Qed.

(** The outcome of a Python computation: a value, or a raised exception. *)
Inductive res (A : Type) :=
| Ok (a : A)
| Exc (e : exn).
Arguments Ok {A} a.
Arguments Exc {A} e.

Definition res_bind {A B} (r : res A) (k : A -> res B) : res B :=
  match r with
  | Ok a => k a
  | Exc e => Exc e
  end.

(** A Python loop that builds a list and stops at the first exception. *)
Fixpoint res_map {A B} (f : A -> res B) (l : list A) : res (list B) :=
  match l with
  | [] => Ok []
  | x :: l' =>
      match f x with
      | Exc e => Exc e
      | Ok y => match res_map f l' with Exc e => Exc e | Ok ys => Ok (y :: ys) end
      end
  end.

Definition is_ok {A} (r : res A) : bool :=
  match r with Ok _ => true | Exc _ => false end.

(** Python code that mutates a state [S]: an exception leaves the state as it was at
    the raise, so the mutations made before the raise are kept. *)
Definition py (S A : Type) : Type := S -> S * res A.

Definition py_ret {S A} (a : A) : py S A := fun s => (s, Ok a).
Definition py_raise {S A} (e : exn) : py S A := fun s => (s, Exc e).
Definition py_get {S} : py S S := fun s => (s, Ok s).
Definition py_modify {S} (f : S -> S) : py S unit := fun s => (f s, Ok tt).
Definition py_lift {S A} (r : res A) : py S A := fun s => (s, r).
Definition py_bind {S A B} (c : py S A) (k : A -> py S B) : py S B :=
  fun s => match c s with
           | (s', Ok a) => k a s'
           | (s', Exc e) => (s', Exc e)
           end.

Declare Scope py_scope.
Delimit Scope py_scope with py.
Notation "'let*' x ':=' c 'in' k" := (py_bind c (fun x => k))
  (at level 10, x pattern, c at level 100, k at level 200) : py_scope.
Notation "c ;;; k" := (py_bind c (fun _ => k))
  (at level 100, right associativity) : py_scope.
Notation "'let?' x ':=' r 'in' k" := (res_bind r (fun x => k))
  (at level 10, x pattern, r at level 100, k at level 200) : py_scope.

(** Python truthiness of a [str]: [not s] holds exactly for the empty string. *)
Definition str_truthy (s : string) : bool := negb (String.eqb s "").

(** ** Generic lemmas *)

Lemma py_bind_ok {S A B} (c : py S A) (k : A -> py S B) s s' a :
  c s = (s', Ok a) -> py_bind c k s = k a s'.
Proof. intros H. unfold py_bind. by rewrite H. Qed.

Lemma py_bind_exc {S A B} (c : py S A) (k : A -> py S B) s s' e :
  c s = (s', Exc e) -> py_bind c k s = (s', Exc e).
Proof. intros H. unfold py_bind. by rewrite H. Qed.

Lemma py_bind_ret {S A B} (a : A) (k : A -> py S B) s :
  py_bind (py_ret a) k s = k a s.
Proof. reflexivity. Qed.

Lemma py_bind_assoc {S A B C} (c : py S A) (f : A -> py S B) (g : B -> py S C) s :
  py_bind (py_bind c f) g s = py_bind c (fun a => py_bind (f a) g) s.
Proof. unfold py_bind. destruct (c s) as [s' [a|e]]; reflexivity. Qed.

Lemma res_bind_ok_inv {A B} (r : res A) (k : A -> res B) b :
  res_bind r k = Ok b -> exists a, r = Ok a /\ k a = Ok b.
Proof. destruct r; simpl; [eauto | discriminate]. Qed.

Lemma res_map_ext_ok {A B} (f : A -> res B) (g : A -> B) (l : list A) :
  (forall x, x ∈ l -> f x = Ok (g x)) -> res_map f l = Ok (map g l).
Proof.
  induction l as [|x l IH]; intros Hf; [done|]. simpl.
  rewrite Hf by set_solver. by rewrite IH by (intros z Hz; apply Hf; set_solver).
Qed.

Lemma res_map_elem {A B} (f : A -> res B) (l : list A) ys x :
  res_map f l = Ok ys -> x ∈ l -> exists y, f x = Ok y /\ y ∈ ys.
Proof.
  revert ys. induction l as [|z l IH]; intros ys H Hx; [set_solver|]. simpl in H.
  destruct (f z) as [y|e] eqn:Ef; [|done].
  destruct (res_map f l) as [ys'|e] eqn:El; [|done]. simplify_eq.
  apply elem_of_cons in Hx as [->|Hx]; [exists y; set_solver|].
  destruct (IH ys' eq_refl Hx) as (y' & ? & ?). exists y'. set_solver.
Qed.

Lemma res_map_app {A B} (f : A -> res B) (l1 l2 : list A) :
  res_map f (l1 ++ l2) = (let? ys1 := res_map f l1 in let? ys2 := res_map f l2 in Ok (ys1 ++ ys2))%py.
Proof.
  induction l1 as [|x l1 IH]; simpl; [by destruct (res_map f l2)|].
  rewrite IH. destruct (f x); [|done].
  destruct (res_map f l1); simpl; [|done]. by destruct (res_map f l2).
Qed.

Lemma concat_map_nil {A B} (l : list A) : concat (map (fun _ => @nil B) l) = [].
Proof. by induction l. Qed.

Lemma str_truthy_false_neg s : str_truthy s = true -> s <> "".
Proof. intros H ->. discriminate. Qed.

Lemma length_app_snoc {A} (l : list A) x : length (l ++ [x]) = S (length l).
Proof. rewrite length_app. simpl. lia. Qed.

(** stdpp makes [String.append] [simpl never]: its two equations are rewrite rules. *)
Lemma str_app_nil_l (b : string) : "" +:+ b = b.
Proof. reflexivity. Qed.

Lemma str_app_cons c (a b : string) : String c a +:+ b = String c (a +:+ b).
Proof. reflexivity. Qed.

Lemma str_length_app (a b : string) :
  String.length (a +:+ b) = String.length a + String.length b.
Proof. induction a as [|c a IH]; [done|]. rewrite str_app_cons. simpl. by rewrite IH. Qed.

Lemma str_app_nil_r (a : string) : a +:+ "" = a.
Proof. induction a as [|c a IH]; [done|]. by rewrite str_app_cons, IH. Qed.

Lemma str_app_assoc (a b c : string) : a +:+ (b +:+ c) = (a +:+ b) +:+ c.
Proof. induction a as [|x a IH]; [done|]. by rewrite !str_app_cons, IH. Qed.

Create HintDb chat discriminated.
Create Rewrite HintDb py.
#[export] Hint Resolve py_bind_ok py_bind_exc : chat.
#[export] Hint Rewrite @py_bind_ret @py_bind_assoc @length_app_snoc : py.
#[export] Hint Rewrite str_app_nil_l str_app_cons str_length_app str_app_nil_r : py.

(** [py_simp] runs the monadic glue of a model: it unfolds the binds and the
    primitive operations and lets [simpl] compute what is concrete. *)
Ltac py_simp :=
  repeat (unfold py_bind, py_ret, py_raise, py_get, py_modify, py_lift, res_bind in *;
          simpl in *).

(** [str_simp] computes string concatenations, which [simpl] leaves alone. *)
Ltac str_simp := simpl in *; autorewrite with py in *; simpl in *.
