(* ===== verification/PyFormat.v ===== *)
(** * Python's format-string parser and [string.Formatter.vformat]

    LangChain's [ChatPromptTemplate.from_messages] (src/app.py line 31) makes an
    f-string [PromptTemplate] of every message. It finds the message's variables with
    [string.Formatter().parse] and renders it with [Formatter.format] (line 35). This
    file models both, after CPython 3.12. It is library code that the script calls,
    not code of the repository:
    - [scan_literal], [markup_after], [markup_next]: MarkupIterator_next
      (Objects/stringlib/unicode_format.h), which yields one
      [(literal_text, field)] chunk per call;
    - [scan_name], [scan_spec], [parse_field]: parse_field of the same file, one pass
      over the stream after the opening brace: the name loop (with ['['] skipping to
      the next [']']), the conversion, and the spec loop that counts nested braces;
    - [formatter_parser]: the iterator run to the end, with fuel;
    - [vformat]: [string.Formatter._vformat] with its [recursion_depth], iterating
      [markup_next] lazily as the Python generator does;
    - [get_field]: [Formatter.get_field] over [field_name_split] and the
      [FieldNameIterator] ([field_name_next], [access_loop]), with unicode_format.h's
      [get_integer] ([name_integer]) deciding which keys are indices.
    The lemmas show that each parser step consumes input (so the fuel suffices),
    that brace-free text is a template without fields that renders to itself, and
    how the two templates of [Generate]'s theorems parse and render. *)

From S2P Require Import Prelude.

Local Open Scope string_scope.
Local Open Scope py_scope.

(** A replacement field [{name!conv:spec}] as the parser returns it. *)
Record field := mk_field {
  field_name : string;
  format_spec : string;
  conversion : option ascii
}.

(** One item of [formatter_parser]: the literal text before a field, and the field. *)
Definition chunk : Type := string * option field.

Definition is_brace (c : ascii) : bool := (c =? "{")%char || (c =? "}")%char.

(** The literal part of MarkupIterator_next: the text up to the first brace, and the
    rest of the string from that brace on. *)
Fixpoint scan_literal (s : string) : string * string :=
  match s with
  | EmptyString => ("", "")
  | String c s' =>
      if is_brace c then ("", s)
      else let '(l, r) := scan_literal s' in (String c l, r)
  end.

(** The field-name loop of parse_field (unicode_format.h), reading the stream after
    the opening brace. [c] is the C code's [c], the last character the loop read
    (NUL before the first). A ['['] makes the inner [for] loop skip to the next
    [']'] without reading it ([in_bracket]), so no character stops the name there.
    The loop breaks after reading ['}'], [':'] or ['!']. It returns the name (the
    characters before the break), the final [c], and the rest of the stream. *)
Fixpoint scan_name (in_bracket : bool) (c : ascii) (s : string)
    : res (string * ascii * string) :=
  match s with
  | EmptyString => Ok ("", c, "")
  | String d s' =>
      if in_bracket && negb (d =? "]")%char then
        let? (n, c', r) := scan_name true c s' in Ok (String d n, c', r)
      else if (d =? "{")%char then Exc (ValueError "unexpected '{' in field name")
      else if (d =? "[")%char then
        let? (n, c', r) := scan_name true d s' in Ok (String d n, c', r)
      else if (d =? "}")%char || (d =? ":")%char || (d =? "!")%char then Ok ("", d, s')
      else let? (n, c', r) := scan_name false d s' in Ok (String d n, c', r)
  end.

(** The format-spec loop of parse_field: [count] starts at 1, a ['{'] adds one and a
    ['}'] takes one away; the spec ends at the ['}'] that brings it to 0. *)
Fixpoint scan_spec (count : nat) (s : string) : res (string * string) :=
  match s with
  | EmptyString => Exc (ValueError "unmatched '{' in format spec")
  | String d s' =>
      if (d =? "{")%char then
        let? (sp, r) := scan_spec (S count) s' in Ok (String d sp, r)
      else if (d =? "}")%char then
        if Nat.eqb count 1 then Ok ("", s')
        else let? (sp, r) := scan_spec (pred count) s' in Ok (String d sp, r)
      else let? (sp, r) := scan_spec count s' in Ok (String d sp, r)
  end.

(** The conversion character, read as formatter_parser reports it: NUL is none. *)
Definition conversion_of (c : ascii) : option ascii :=
  if (c =? Ascii.zero)%char then None else Some c.

(** The end of parse_field once a spec follows: the spec loop from the stream [r]. *)
Definition spec_field (n : string) (conv : option ascii) (r : string)
    : res (field * string) :=
  let? (sp, r') := scan_spec 1 r in Ok (mk_field n sp conv, r').

(** parse_field: the field after an opening brace, and the rest of the stream after
    its closing brace. A conversion at the very end of the stream falls through to
    the spec loop, which then reports the unmatched brace. *)
Definition parse_field (s : string) : res (field * string) :=
  let? (n, c, r) := scan_name false Ascii.zero s in
  if (c =? "!")%char then
    match r with
    | EmptyString =>
        Exc (ValueError "end of string while looking for conversion specifier")
    | String cv EmptyString => spec_field n (conversion_of cv) ""
    | String cv (String c2 r') =>
        if (c2 =? "}")%char then Ok (mk_field n "" (conversion_of cv), r')
        else if (c2 =? ":")%char then spec_field n (conversion_of cv) r'
        else Exc (ValueError "expected ':' after conversion specifier")
    end
  else if (c =? ":")%char then spec_field n None r
  else if (c =? "}")%char then Ok (mk_field n "" None, r)
  else Exc (ValueError "expected '}' before end of string").

(** MarkupIterator_next after the literal scan: [lit] is the literal text and [rest]
    is the input from the first brace on (empty when there is none). A doubled brace
    ends a literal chunk that holds one brace of the pair; otherwise parse_field
    reads the field from the stream after the opening brace. *)
Definition markup_after (lit rest : string) : res (option (chunk * string)) :=
  match rest with
  | EmptyString => Ok (Some ((lit, None), ""))
  | String c rest' =>
      if (c =? "}")%char then
        match rest' with
        | String c2 r =>
            if (c2 =? "}")%char then Ok (Some ((lit +:+ "}", None), r))
            else Exc (ValueError "Single '}' encountered in format string")
        | EmptyString => Exc (ValueError "Single '}' encountered in format string")
        end
      else
        match rest' with
        | EmptyString => Exc (ValueError "Single '{' encountered in format string")
        | String c2 r =>
            if (c2 =? "{")%char then Ok (Some ((lit +:+ "{", None), r))
            else let? (fld, r') := parse_field rest' in Ok (Some ((lit, Some fld), r'))
        end
  end.

(** MarkupIterator_next: [Ok None] at the end of the string, otherwise one chunk and
    the rest of the string. *)
Definition markup_next (s : string) : res (option (chunk * string)) :=
  match s with
  | EmptyString => Ok None
  | _ => let '(lit, rest) := scan_literal s in markup_after lit rest
  end.

(** [_string.formatter_parser] run to the end (as [list(Formatter().parse(s))]). *)
Fixpoint formatter_parser (fuel : nat) (s : string) : res (list chunk) :=
  match fuel with
  | O => Ok []
  | S fuel' =>
      match markup_next s with
      | Exc e => Exc e
      | Ok None => Ok []
      | Ok (Some (ch, r)) => let? rest := formatter_parser fuel' r in Ok (ch :: rest)
      end
  end.

Definition parse (s : string) : res (list chunk) := formatter_parser (String.length s) s.

(** ** Rendering: [string.Formatter.vformat] *)

(** The Python built-ins that rendering a field can reach: [repr] and [ascii] of a
    [str], [str.__format__] with a non-empty spec, and what happens after an
    attribute of a [str] that exists: [b_attr self name rest] is the [str] of the
    final object, or the exception raised, when [getattr(self, name)] is followed by
    the accesses [rest] of the field name. [PyStr.py_builtins] gives the first
    three. *)
Record Builtins := mk_builtins {
  b_repr : string -> string;
  b_ascii : string -> string;
  b_format : string -> string -> res string;
  b_attr : string -> string -> string -> res string
}.

Definition is_digit (c : ascii) : bool :=
  Nat.leb 48 (nat_of_ascii c) && Nat.leb (nat_of_ascii c) 57.

(** The first part of [field_name_split] (unicode_format.h): the name up to the
    first ['.'] or ['['], and the rest for the [FieldNameIterator].
    [_FieldNameIterator_attr] runs the same loop for the name of an attribute. *)
Fixpoint field_name_split (s : string) : string * string :=
  match s with
  | EmptyString => ("", "")
  | String c s' =>
      if (c =? ".")%char || (c =? "[")%char then ("", s)
      else let '(a, b) := field_name_split s' in (String c a, b)
  end.

(** [PY_SSIZE_T_MAX] on a 64-bit build. *)
Definition PY_SSIZE_T_MAX : Z := 9223372036854775807%Z.

(** [Py_UNICODE_TODECIMAL] on a digit. *)
Definition digit_value (c : ascii) : Z := (Z.of_nat (nat_of_ascii c) - 48)%Z.

(** The loop of unicode_format.h's [get_integer] on a whole name: [None] (the C
    code's [-1] without an exception) at the first non-digit, [ValueError] as soon
    as the next digit would overflow [Py_ssize_t]. *)
Fixpoint name_integer_loop (accumulator : Z) (s : string) : res (option Z) :=
  match s with
  | EmptyString => Ok (Some accumulator)
  | String c s' =>
      if is_digit c then
        let digitval := digit_value c in
        if Z.gtb accumulator ((PY_SSIZE_T_MAX - digitval) / 10) then
          Exc (ValueError "Too many decimal digits in format string")
        else name_integer_loop (accumulator * 10 + digitval)%Z s'
      else Ok None
  end.

(** [get_integer] of unicode_format.h: the empty name is not an integer. *)
Definition name_integer (s : string) : res (option Z) :=
  if String.eqb s "" then Ok None else name_integer_loop 0 s.

(** One step of the [FieldNameIterator]: an attribute [.name] or an item [[key]],
    the key an integer when it is decimal. *)
Inductive accessor := Attr (name : string) | ItemInt (i : Z) | ItemStr (key : string).

(** [_FieldNameIterator_item]: the key up to the next [']'], which is consumed;
    [None] when there is none. *)
Fixpoint item_name (s : string) : option (string * string) :=
  match s with
  | EmptyString => None
  | String c s' =>
      if (c =? "]")%char then Some ("", s')
      else '(a, b) ← item_name s'; Some (String c a, b)
  end.

(** [FieldNameIterator_next]. *)
Definition field_name_next (s : string) : res (option (accessor * string)) :=
  match s with
  | EmptyString => Ok None
  | String c s' =>
      if (c =? ".")%char then
        let '(n, r) := field_name_split s' in
        if String.eqb n "" then Exc (ValueError "Empty attribute in format string")
        else Ok (Some (Attr n, r))
      else if (c =? "[")%char then
        match item_name s' with
        | None => Exc (ValueError "Missing ']' in format string")
        | Some (n, r) =>
            let? idx := name_integer n in
            if String.eqb n "" then Exc (ValueError "Empty attribute in format string")
            else Ok (Some (match idx with Some i => ItemInt i | None => ItemStr n end, r))
        end
      else Exc (ValueError "Only '.' or '[' may follow ']' in format field specifier")
  end.

(** [dir(str)] in CPython 3.12: the attributes [getattr] finds on a [str]. *)
Definition str_attributes : list string :=
  ["__add__"; "__class__"; "__contains__"; "__delattr__"; "__dir__"; "__doc__";
   "__eq__"; "__format__"; "__ge__"; "__getattribute__"; "__getitem__";
   "__getnewargs__"; "__getstate__"; "__gt__"; "__hash__"; "__init__";
   "__init_subclass__"; "__iter__"; "__le__"; "__len__"; "__lt__"; "__mod__";
   "__mul__"; "__ne__"; "__new__"; "__reduce__"; "__reduce_ex__"; "__repr__";
   "__rmod__"; "__rmul__"; "__setattr__"; "__sizeof__"; "__str__"; "__subclasshook__";
   "capitalize"; "casefold"; "center"; "count"; "encode"; "endswith"; "expandtabs";
   "find"; "format"; "format_map"; "index"; "isalnum"; "isalpha"; "isascii";
   "isdecimal"; "isdigit"; "isidentifier"; "islower"; "isnumeric"; "isprintable";
   "isspace"; "istitle"; "isupper"; "join"; "ljust"; "lower"; "lstrip"; "maketrans";
   "partition"; "removeprefix"; "removesuffix"; "replace"; "rfind"; "rindex"; "rjust";
   "rpartition"; "rsplit"; "rstrip"; "split"; "splitlines"; "startswith"; "strip";
   "swapcase"; "title"; "translate"; "upper"; "zfill"].

(** [s[i]] for a [str] and a non-negative index. *)
Definition str_getitem (s : string) (i : Z) : res string :=
  if (i <? Z.of_nat (String.length s))%Z then
    match String.get (Z.to_nat i) s with
    | Some c => Ok (String c "")
    | None => Exc (IndexError "string index out of range")
    end
  else Exc (IndexError "string index out of range").

Section Vformat.
Context (B : Builtins) (kwargs : gmap string string).

(** The loop of [Formatter.get_field] over the rest of the field name while the
    object is a [str]: [getattr] or [obj[key]] per step, the iterator advanced
    lazily so that an access raises before a later part is parsed. *)
Fixpoint access_loop (fuel : nat) (obj : string) (rest : string) : res string :=
  match fuel with
  | O => Ok obj
  | S fuel' =>
      let? step := field_name_next rest in
      match step with
      | None => Ok obj
      | Some (Attr a, r) =>
          if bool_decide (a ∈ str_attributes) then b_attr B obj a r
          else Exc (AttributeError ("'str' object has no attribute '" +:+ a +:+ "'"))
      | Some (ItemInt i, r) => let? c := str_getitem obj i in access_loop fuel' c r
      | Some (ItemStr _, _) => Exc (TypeError "string indices must be integers, not 'str'")
      end
  end.

(** [Formatter.get_field] with no positional arguments. An empty field name is
    auto-numbered to [0] and a decimal first part is an index. Either way [args[i]]
    raises [IndexError], before the checks between numbering modes could fire. *)
Definition get_field (name : string) : res string :=
  if String.eqb name "" then Exc (IndexError "tuple index out of range")
  else
    let '(first, rest) := field_name_split name in
    let? first_idx := name_integer first in
    match first_idx with
    | Some _ => Exc (IndexError "tuple index out of range")
    | None =>
        match kwargs !! first with
        | None => Exc (KeyError first)
        | Some obj => access_loop (String.length rest) obj rest
        end
    end.

(** [Formatter.convert_field]. *)
Definition convert_field (obj : string) (conv : option ascii) : res string :=
  match conv with
  | None => Ok obj
  | Some c =>
      if (c =? "s")%char then Ok obj
      else if (c =? "r")%char then Ok (b_repr B obj)
      else if (c =? "a")%char then Ok (b_ascii B obj)
      else Exc (ValueError ("Unknown conversion specifier " +:+ String c ""))
  end.

(** [Formatter.format_field] on a [str]: [format(obj, "")] is [obj]. *)
Definition format_field (obj spec : string) : res string :=
  if String.eqb spec "" then Ok obj else b_format B obj spec.

(** One field of [Formatter._vformat]: [get_field], [convert_field], the spec
    rendered one level deeper by [render_spec], then [format_field]. *)
Definition render_field (render_spec : string -> res string) (f : field) : res string :=
  let? obj := get_field (field_name f) in
  let? obj' := convert_field obj (conversion f) in
  let? spec := render_spec (format_spec f) in
  format_field obj' spec.

(** The loop of [Formatter._vformat] over the chunks, pulled one at a time from
    [markup_next] as the generator [self.parse] yields them. *)
Fixpoint vformat_loop (render_spec : string -> res string) (fuel : nat) (s : string)
    : res string :=
  match fuel with
  | O => Ok ""
  | S fuel' =>
      match markup_next s with
      | Exc e => Exc e
      | Ok None => Ok ""
      | Ok (Some ((lit, None), r)) =>
          let? rest := vformat_loop render_spec fuel' r in Ok (lit +:+ rest)
      | Ok (Some ((lit, Some f), r)) =>
          let? piece := render_field render_spec f in
          let? rest := vformat_loop render_spec fuel' r in
          Ok (lit +:+ piece +:+ rest)
      end
  end.

(** The reference renderer: the chunks of a template parsed in full beforehand. *)
Fixpoint render_chunks (render_spec : string -> res string) (cs : list chunk)
    : res string :=
  match cs with
  | [] => Ok ""
  | (lit, None) :: cs' => let? rest := render_chunks render_spec cs' in Ok (lit +:+ rest)
  | (lit, Some f) :: cs' =>
      let? piece := render_field render_spec f in
      let? rest := render_chunks render_spec cs' in
      Ok (lit +:+ piece +:+ rest)
  end.

(** [Formatter._vformat] at [recursion_depth = depth]. The spec of a field is
    rendered at [depth - 1], and Python raises on entry when that is negative. *)
Fixpoint vformat (depth : nat) (s : string) : res string :=
  vformat_loop (fun spec => match depth with
                            | O => Exc (ValueError "Max string recursion exceeded")
                            | S d => vformat d spec
                            end)
               (String.length s) s.

(** [Formatter.format(s, **kwargs)]: [vformat] at the top depth 2. *)
Definition format (s : string) : res string := vformat 2 s.

(** The spec renderer of [vformat] at depth [d]. *)
Definition spec_renderer (d : nat) : string -> res string :=
  fun spec => match d with
              | O => Exc (ValueError "Max string recursion exceeded")
              | S d' => vformat d' spec
              end.

End Vformat.

(** The field names of a template, as LangChain's [get_template_variables] collects
    them from [Formatter().parse] (in order; LangChain keeps them as a set). *)
Definition template_variables (chunks : list chunk) : list string :=
  omap (fun ch => field_name <$> snd ch) chunks.

(** Python's [c not in s] for both braces. *)
Fixpoint brace_free (s : string) : bool :=
  match s with
  | EmptyString => true
  | String c s' => negb (is_brace c) && brace_free s'
  end.

(** Sample built-ins for concrete runs: Python's [repr] of a [str] without quotes
    to escape, and [str.__format__] refusing every non-empty spec. *)
Definition example_builtins : Builtins :=
  mk_builtins (fun s => "'" +:+ s +:+ "'") (fun s => "'" +:+ s +:+ "'")
              (fun _ spec => Exc (ValueError ("Invalid format specifier '" +:+ spec +:+ "'")))
              (fun _ a _ => Exc (AttributeError a)).

(** ** The parser consumes its input, and [length s] is enough fuel *)

Lemma scan_literal_app a s l r :
  brace_free a = true -> scan_literal s = (l, r) -> scan_literal (a +:+ s) = (a +:+ l, r).
Proof.
  induction a as [|c a IH]; intros Ha Hs; [done|].
  apply andb_prop in Ha as [Hc Ha]. apply negb_true_iff in Hc.
  rewrite !str_app_cons. simpl. by rewrite Hc, (IH Ha Hs).
Qed.

Lemma scan_literal_brace_free s : brace_free s = true -> scan_literal s = (s, "").
Proof.
  intros H. rewrite <- (str_app_nil_r s) at 1.
  rewrite (scan_literal_app s "" "" ""); [by rewrite str_app_nil_r | done | done].
Qed.

Lemma scan_literal_split s : s = (scan_literal s).1 +:+ (scan_literal s).2.
Proof.
  induction s as [|c s IH]; [done|]. simpl.
  destruct (is_brace c); [done|]. destruct (scan_literal s) as [l r]. simpl in *.
  by rewrite str_app_cons, <- IH.
Qed.

(** The loops of parse_field only move forward in the stream. *)
Lemma scan_name_length b c s n c' r :
  scan_name b c s = Ok (n, c', r) -> String.length r <= String.length s.
Proof.
  revert b c n c' r. induction s as [|d s IH]; intros b c n c' r H; simpl in H;
    [simplify_eq/=; lia|].
  repeat case_match; simplify_eq/=; try lia;
    apply res_bind_ok_inv in H as ([[? ?] ?] & ?%IH & ?); simplify_eq/=; lia.
Qed.

Lemma scan_spec_length count s sp r :
  scan_spec count s = Ok (sp, r) -> String.length r < String.length s.
Proof.
  revert count sp r. induction s as [|d s IH]; intros count sp r H; simpl in H; [done|].
  simpl. repeat case_match; simplify_eq/=; try lia;
    apply res_bind_ok_inv in H as ([? ?] & ?%IH & ?); simplify_eq/=; lia.
Qed.

Lemma spec_field_length n conv s f r :
  spec_field n conv s = Ok (f, r) -> String.length r < String.length s.
Proof.
  unfold spec_field. intros ([sp r'] & Hs%scan_spec_length & ?)%res_bind_ok_inv.
  by simplify_eq/=.
Qed.

Lemma parse_field_length s f r :
  parse_field s = Ok (f, r) -> String.length r <= String.length s.
Proof.
  unfold parse_field. intros ([[n c] r0] & Hn%scan_name_length & H)%res_bind_ok_inv.
  repeat case_match; simplify_eq/=;
    try (apply spec_field_length in H); simpl in *; lia.
Qed.

Lemma markup_after_length lit rest ch r :
  markup_after lit rest = Ok (Some (ch, r)) ->
  String.length r < String.length rest \/ r = "".
Proof.
  unfold markup_after. intros H.
  destruct rest as [|c rest']; [simplify_eq; by right|].
  destruct (c =? "}")%char.
  - destruct rest' as [|c2 r0]; [done|].
    destruct (c2 =? "}")%char; simplify_eq/=. left. lia.
  - destruct rest' as [|c2 r0]; [done|].
    destruct (c2 =? "{")%char; [simplify_eq/=; left; lia|].
    apply res_bind_ok_inv in H as ([fld r'] & E & H). simplify_eq.
    apply parse_field_length in E. left. simpl in *. lia.
Qed.

Lemma markup_next_nonempty s :
  s <> "" -> markup_next s = markup_after (scan_literal s).1 (scan_literal s).2.
Proof. destruct s; [done|]. intros _. unfold markup_next. by destruct (scan_literal _). Qed.

Lemma markup_next_length s ch r :
  markup_next s = Ok (Some (ch, r)) -> String.length r < String.length s.
Proof.
  destruct (decide (s = "")) as [->|Hs]; [done|].
  rewrite markup_next_nonempty by done.
  pose proof (f_equal String.length (scan_literal_split s)) as Hl.
  rewrite str_length_app in Hl.
  destruct (scan_literal s) as [l rest]; simpl in *.
  intros [H | ->]%markup_after_length; [lia|].
  destruct s; [done|]. simpl. lia.
Qed.

Lemma formatter_parser_fuel_eq n m s :
  String.length s <= n -> String.length s <= m -> formatter_parser n s = formatter_parser m s.
Proof.
  revert m s. induction n as [|n IH]; intros m s Hn Hm.
  - destruct s; [|simpl in Hn; lia]. by destruct m.
  - destruct m as [|m]; [destruct s; [done|simpl in Hm; lia]|]. simpl.
    destruct (markup_next s) as [[[ch r]|]|e] eqn:E; [|done|done].
    apply markup_next_length in E. by rewrite (IH m r) by lia.
Qed.

Lemma markup_next_app a s :
  brace_free a = true -> s <> "" ->
  markup_next (a +:+ s) = markup_after (a +:+ (scan_literal s).1) (scan_literal s).2.
Proof.
  intros Ha Hs. rewrite markup_next_nonempty.
  - by rewrite (scan_literal_app a s (scan_literal s).1 (scan_literal s).2) by
      (done || by destruct (scan_literal s)).
  - intros E. apply (f_equal String.length) in E. rewrite str_length_app in E.
    destruct s; [done|]. simpl in E. lia.
Qed.

Lemma markup_next_brace_free s :
  brace_free s = true -> s <> "" -> markup_next s = Ok (Some ((s, None), "")).
Proof. intros H Hs. rewrite markup_next_nonempty, scan_literal_brace_free by done. done. Qed.

Lemma parse_step s ch r :
  markup_next s = Ok (Some (ch, r)) -> parse s = (let? rest := parse r in Ok (ch :: rest)).
Proof.
  intros H. pose proof (markup_next_length _ _ _ H) as Hl.
  unfold parse. destruct s as [|c s']; [done|]. cbn [String.length formatter_parser].
  rewrite H. simpl in Hl. by rewrite (formatter_parser_fuel_eq _ (String.length r)) by lia.
Qed.

Lemma parse_brace_free s :
  brace_free s = true -> s <> "" -> parse s = Ok [(s, None)].
Proof.
  intros H Hs. unfold parse. destruct s as [|c s']; [done|].
  cbn [String.length formatter_parser]. rewrite markup_next_brace_free by done.
  by destruct s'.
Qed.

Lemma template_variables_brace_free s :
  brace_free s = true -> exists cs, parse s = Ok cs /\ template_variables cs = [].
Proof.
  intros H. destruct (decide (s = "")) as [->|Hs]; [by exists []|].
  exists [(s, None)]. by rewrite parse_brace_free.
Qed.

(** ** Two templates a user can type *)

(** Doubled braces are two literal chunks, each ending in one brace of a pair. *)
Lemma parse_doubled_braces a b :
  brace_free a = true -> brace_free b = true ->
  parse (a +:+ "{{" +:+ b +:+ "}}") = Ok [(a +:+ "{", None); (b +:+ "}", None)].
Proof.
  intros Ha Hb.
  assert (Hm1 : markup_next (a +:+ "{{" +:+ b +:+ "}}")
                = Ok (Some ((a +:+ "{", None), b +:+ "}}"))).
  { rewrite markup_next_app by done. simpl. by rewrite str_app_nil_r. }
  assert (Hm2 : markup_next (b +:+ "}}") = Ok (Some ((b +:+ "}", None), ""))).
  { rewrite markup_next_app by done. simpl. by rewrite str_app_nil_r. }
  by rewrite (parse_step _ _ _ Hm1), (parse_step _ _ _ Hm2).
Qed.

Lemma scan_spec_brace_free count sp r :
  brace_free sp = true -> scan_spec (S count) (sp +:+ String "}" r) =
    if Nat.eqb count 0 then Ok (sp, r) else
    let? (sp', r') := scan_spec count r in Ok (sp +:+ String "}" sp', r').
Proof.
  induction sp as [|c sp IH]; intros H; simpl.
  - by destruct count.
  - apply andb_prop in H as [Hc H]. unfold is_brace in Hc.
    destruct (c =? "{")%char, (c =? "}")%char; simpl in Hc; try done.
    rewrite (IH H). destruct (Nat.eqb count 0); [done|].
    by destruct (scan_spec count r) as [[]|].
Qed.

(** A field [{question:spec}] with a spec without braces is one chunk. *)
Lemma parse_question_spec spec :
  brace_free spec = true ->
  parse ("{question:" +:+ spec +:+ "}") = Ok [("", Some (mk_field "question" spec None))].
Proof.
  intros H. apply (parse_step _ _ ""). rewrite !str_app_cons. cbn -[scan_spec].
  rewrite str_app_nil_l. unfold spec_field. by rewrite (scan_spec_brace_free 0 spec "").
Qed.

Section Rendering.
Context (B : Builtins) (kwargs : gmap string string).

Lemma vformat_loop_render rs n s cs :
  String.length s <= n -> formatter_parser n s = Ok cs ->
  vformat_loop B kwargs rs n s = render_chunks B kwargs rs cs.
Proof.
  revert s cs. induction n as [|n IH]; intros s cs Hn Hp.
  - simplify_eq/=. done.
  - cbn [formatter_parser vformat_loop] in *.
    destruct (markup_next s) as [[[[lit fo] r]|]|e] eqn:E; simplify_eq/=; [|done].
    apply res_bind_ok_inv in Hp as (rest & Hr & ?); simplify_eq.
    apply markup_next_length in E.
    destruct fo; simpl; rewrite (IH r rest) by (done || lia); done.
Qed.

(** [Formatter.format] renders the chunks of a template that parses. *)
Lemma format_chunks s cs :
  parse s = Ok cs -> format B kwargs s = render_chunks B kwargs (spec_renderer B kwargs 2) cs.
Proof. intros H. by apply vformat_loop_render. Qed.

(** Brace-free text renders to itself at every depth, a format spec included. *)
Lemma vformat_brace_free d s : brace_free s = true -> vformat B kwargs d s = Ok s.
Proof.
  intros H. destruct (decide (s = "")) as [->|Hs]; [by destruct d|].
  assert (Hp : parse s = Ok [(s, None)]).
  { rewrite (parse_step s (s, None) ""); [reflexivity|]. by apply markup_next_brace_free. }
  destruct d; simpl; rewrite (vformat_loop_render _ _ _ _ (le_n _) Hp); simpl;
    by rewrite str_app_nil_r.
Qed.

(** A doubled brace in the text is rendered as a single brace: [Formatter.format]
    does not return a text such as [a{{b}}] as it was written. *)
Lemma format_doubled_braces a b :
  brace_free a = true -> brace_free b = true ->
  format B kwargs (a +:+ "{{" +:+ b +:+ "}}") = Ok (a +:+ "{" +:+ b +:+ "}").
Proof.
  intros Ha Hb. rewrite (format_chunks _ _ (parse_doubled_braces a b Ha Hb)).
  simpl. by rewrite str_app_nil_r, <- !str_app_assoc.
Qed.

End Rendering.
