(* ===== verification/PyStr.v ===== *)
(** * The [str] built-ins that rendering a prompt reaches

    [Formatter.format_field] calls [format(obj, spec)], which for a [str] is
    [str.__format__], and [Formatter.convert_field] calls [repr] and [ascii]. The
    script reaches them through the prompt template of line 31 when the chain renders
    it at line 35, because a user's question is itself a template. This file models
    them after CPython 3.12:
    - [get_integer], [parse_internal_render_format_spec], [calc_padding],
      [format_string_internal], [str_format]: Python/formatter_unicode.c, with the
      [Py_ssize_t] overflow test of [get_integer] written out at width 64;
    - [py_repr]: [unicode_repr] of Objects/unicodeobject.c, for code points below
      256 (the values of [ascii]);
    - [py_ascii]: [PyObject_ASCII], the repr with the [backslashreplace] handler;
    - [py_builtins]: the [Builtins] of [PyFormat] built from them.
    Like [PyFormat], this is library code. The lemmas characterise
    [str.__format__] on a spec that is a width alone ([str_format_width]), the case a
    question [{question:ds}] reaches. *)

From Stdlib Require Import ZArith.
From S2P Require Import Prelude PyFormat.

Local Open Scope string_scope.
Local Open Scope py_scope.

(** ** [str.__format__]: the format-spec mini-language *)

(** The loop of [get_integer]: the accumulator, the digits read so far and the rest
    of the spec. The overflow test [accumulator > (PY_SSIZE_T_MAX - digitval) / 10]
    runs before each multiply-add. *)
Fixpoint get_integer_loop (accumulator : Z) (numdigits : nat) (s : string)
    : res (Z * nat * string) :=
  match s with
  | String c s' =>
      if is_digit c then
        let digitval := digit_value c in
        if Z.gtb accumulator ((PY_SSIZE_T_MAX - digitval) / 10) then
          Exc (ValueError "Too many decimal digits in format string")
        else get_integer_loop (accumulator * 10 + digitval)%Z (S numdigits) s'
      else Ok (accumulator, numdigits, s)
  | EmptyString => Ok (accumulator, numdigits, s)
  end.

Definition get_integer (s : string) : res (Z * nat * string) := get_integer_loop 0 0 s.

(** [enum LocaleType] as far as [str.__format__] reaches it. *)
Inductive LocaleType := LT_NO_LOCALE | LT_DEFAULT_LOCALE | LT_UNDERSCORE_LOCALE
                      | LT_UNDER_FOUR_LOCALE.

#[export] Instance LocaleType_eq_dec : EqDecision LocaleType.
Proof. solve_decision. Defined.

(** [InternalFormatSpec]; [sign] is NUL when absent, [width] and [precision] are
    [-1] when absent, as in the C struct. *)
Record InternalFormatSpec := mk_format_spec {
  fill_char : ascii;
  align : ascii;
  alternate : bool;
  no_neg_0 : bool;
  sign : ascii;
  width : Z;
  thousands_separators : LocaleType;
  precision : Z;
  type : ascii
}.

Definition is_alignment_token (c : ascii) : bool :=
  (c =? "<")%char || (c =? ">")%char || (c =? "=")%char || (c =? "^")%char.

Definition is_sign_element (c : ascii) : bool :=
  (c =? " ")%char || (c =? "+")%char || (c =? "-")%char.

(** [%x] of a code point below 256, without padding. *)
Definition hex_digit (n : nat) : ascii :=
  if Nat.ltb n 10 then ascii_of_nat (48 + n) else ascii_of_nat (87 + n).

Definition hex_of_code (n : nat) : string :=
  if Nat.ltb n 16 then String (hex_digit n) ""
  else String (hex_digit (n / 16)) (String (hex_digit (n mod 16)) "").

(** The ['%c'] of an error message, or ['\x%x'] outside [33..127]. *)
Definition presentation_char (c : ascii) : string :=
  if Nat.ltb 32 (nat_of_ascii c) && Nat.ltb (nat_of_ascii c) 128 then String c ""
  else "\x" +:+ hex_of_code (nat_of_ascii c).

Definition invalid_comma_and_underscore : exn :=
  ValueError "Cannot specify both ',' and '_'.".

Definition invalid_thousands_separator_type (specifier presentation_type : ascii) : exn :=
  ValueError ("Cannot specify '" +:+ String specifier "" +:+ "' with '"
              +:+ presentation_char presentation_type +:+ "'.").

Definition unknown_presentation_type (presentation_type : ascii) (type_name : string) : exn :=
  ValueError ("Unknown format code '" +:+ presentation_char presentation_type
              +:+ "' for object of type '" +:+ type_name +:+ "'").

(** The first step: [[fill]align]. Returns the fill, the alignment, whether each
    was given, and the rest. *)
Definition parse_fill_align (default_align : ascii) (s : string)
    : ascii * ascii * bool * bool * string :=
  match s with
  | String f (String a r) =>
      if is_alignment_token a then (f, a, true, true, r)
      else if is_alignment_token f then (" "%char, f, false, true, String a r)
      else (" "%char, default_align, false, false, s)
  | String a r =>
      if is_alignment_token a then (" "%char, a, false, true, r)
      else (" "%char, default_align, false, false, s)
  | EmptyString => (" "%char, default_align, false, false, s)
  end.

(** One optional character [c] at the head of [s]. *)
Definition accept (p : ascii -> bool) (s : string) : option ascii * string :=
  match s with
  | String c r => if p c then (Some c, r) else (None, s)
  | EmptyString => (None, s)
  end.

Definition is_char (c : ascii) (d : ascii) : bool := (d =? c)%char.

Definition nul : ascii := ascii_of_nat 0.

(** [c in s] for a character and a string of characters. *)
Fixpoint char_in (c : ascii) (s : string) : bool :=
  match s with
  | EmptyString => false
  | String d s' => (c =? d)%char || char_in c s'
  end.

(** The [char] the C code passes for a [LocaleType] value. *)
Definition locale_char (ts : LocaleType) : ascii :=
  match ts with
  | LT_NO_LOCALE => nul
  | LT_DEFAULT_LOCALE => ","%char
  | LT_UNDERSCORE_LOCALE => "_"%char
  | LT_UNDER_FOUR_LOCALE => "`"%char
  end.

(** The final validation of the separators against the presentation type. *)
Definition check_thousands (ts : LocaleType) (ty : ascii) : res LocaleType :=
  match ts with
  | LT_NO_LOCALE => Ok ts
  | _ =>
      if char_in ty "defgEG%F" || (ty =? nul)%char then Ok ts
      else if char_in ty "boxX" && bool_decide (ts = LT_UNDERSCORE_LOCALE) then
        Ok LT_UNDER_FOUR_LOCALE
      else Exc (invalid_thousands_separator_type (locale_char ts) ty)
  end.

(** The [0] flag: a zero fill when no fill was given; the ['='] alignment only
    when the type's default alignment is ['>'] and none was given. *)
Definition parse_zero (fill_specified align_specified : bool) (default_align fill al : ascii)
    (s : string) : ascii * ascii * string :=
  if fill_specified then (fill, al, s)
  else match accept (is_char "0") s with
       | (Some _, r) =>
           ("0"%char,
            if negb align_specified && (default_align =? ">")%char then "="%char else al, r)
       | (None, _) => (fill, al, s)
       end.

(** The separators [,] and [_] and the check that they are not both given. *)
Definition parse_separators (s : string) : res (LocaleType * string) :=
  let '(ts, s1) := match accept (is_char ",") s with
                   | (Some _, r) => (LT_DEFAULT_LOCALE, r)
                   | (None, _) => (LT_NO_LOCALE, s)
                   end in
  let? (ts, s2) := match accept (is_char "_") s1 with
                   | (Some _, r) =>
                       if bool_decide (ts = LT_NO_LOCALE) then Ok (LT_UNDERSCORE_LOCALE, r)
                       else Exc invalid_comma_and_underscore
                   | (None, _) => Ok (ts, s1)
                   end in
  match accept (is_char ",") s2 with
  | (Some _, _) =>
      if bool_decide (ts = LT_UNDERSCORE_LOCALE) then Exc invalid_comma_and_underscore
      else Ok (ts, s2)
  | (None, _) => Ok (ts, s2)
  end.

(** [.precision]; a dot with no digits is an error. *)
Definition parse_precision (s : string) : res (Z * string) :=
  match accept (is_char ".") s with
  | (Some _, r) =>
      let? (p, r') := get_integer r in
      let '(p, numdigits) := p in
      if Nat.eqb numdigits 0 then Exc (ValueError "Format specifier missing precision")
      else Ok (p, r')
  | (None, _) => Ok ((-1)%Z, s)
  end.

(** [parse_internal_render_format_spec]: the grammar
    [[[fill]align][sign][z][#][0][width][grouping][.precision][type]]. *)
Definition parse_internal_render_format_spec (type_name spec : string)
    (default_type default_align : ascii) : res InternalFormatSpec :=
  let '(fill, al, fill_specified, align_specified, s1) :=
    parse_fill_align default_align spec in
  let '(sgn, s2) := accept is_sign_element s1 in
  let '(z, s3) := accept (is_char "z") s2 in
  let '(alt, s4) := accept (is_char "#") s3 in
  let '(fill, al, s5) := parse_zero fill_specified align_specified default_align fill al s4 in
  let? (w, s6) := get_integer s5 in
  let '(w, wdigits) := w in
  let width := if Nat.eqb wdigits 0 then (-1)%Z else w in
  let? (ts, s7) := parse_separators s6 in
  let? (prec, s8) := parse_precision s7 in
  let? ty := match s8 with
             | EmptyString => Ok default_type
             | String c EmptyString => Ok c
             | _ => Exc (ValueError ("Invalid format specifier '" +:+ spec
                          +:+ "' for object of type '" +:+ type_name +:+ "'"))
             end in
  let? ts := check_thousands ts ty in
  Ok (mk_format_spec fill al (bool_decide (is_Some alt)) (bool_decide (is_Some z))
        (default nul sgn) width ts prec ty).

(** [calc_padding]: the left padding, the right padding and the total width. The
    alignment is one of the four tokens here; [Py_UNREACHABLE] is not reached. *)
Definition calc_padding (nchars width : Z) (al : ascii) : Z * Z * Z :=
  let total := if (0 <=? width)%Z then (if (nchars >? width)%Z then nchars else width)
               else nchars in
  let n_lpadding := if (al =? ">")%char then (total - nchars)%Z
                    else if (al =? "^")%char then ((total - nchars) / 2)%Z
                    else 0%Z in
  (n_lpadding, (total - nchars - n_lpadding)%Z, total).

(** [n] copies of the fill character ([_PyUnicode_FastFill]). *)
Fixpoint fill_string (n : nat) (c : ascii) : string :=
  match n with O => EmptyString | S n' => String c (fill_string n' c) end.

(** The padded text: [fill_padding] around the first [len] characters. *)
Definition padded (value : string) (f : InternalFormatSpec) (len : Z) : string :=
  let '(lpad, rpad, _) := calc_padding len (width f) (align f) in
  fill_string (Z.to_nat lpad) (fill_char f) +:+ String.substring 0 (Z.to_nat len) value
    +:+ fill_string (Z.to_nat rpad) (fill_char f).

(** [format_string_internal], with its fast path when neither width nor precision
    changes the text. *)
Definition format_string_internal (value : string) (f : InternalFormatSpec) : res string :=
  let len := Z.of_nat (String.length value) in
  if negb (sign f =? nul)%char then
    Exc (ValueError (if (sign f =? " ")%char then "Space not allowed in string format specifier"
                     else "Sign not allowed in string format specifier"))
  else if no_neg_0 f then
    Exc (ValueError "Negative zero coercion (z) not allowed in string format specifier")
  else if alternate f then
    Exc (ValueError "Alternate form (#) not allowed in string format specifier")
  else if (align f =? "=")%char then
    Exc (ValueError "'=' alignment not allowed in string format specifier")
  else if ((width f =? -1) || (width f <=? len))%Z
          && ((precision f =? -1) || (precision f >=? len))%Z then Ok value
  else
    let len := if ((precision f >=? 0) && (len >=? precision f))%Z then precision f else len in
    Ok (padded value f len).

(** [str.__format__] ([unicode__format__]): an empty spec is [str(self)];
    otherwise the spec is parsed with default type ['s'] and alignment ['<'] and
    only the type ['s'] is known. *)
Definition str_format (value spec : string) : res string :=
  if String.eqb spec "" then Ok value
  else
    let? f := parse_internal_render_format_spec "str" spec "s"%char "<"%char in
    if (type f =? "s")%char then format_string_internal value f
    else Exc (unknown_presentation_type (type f) "str").

(** ** [repr] and [ascii] of a [str] *)

Definition dquote : ascii := ascii_of_nat 34.
Definition tab : ascii := ascii_of_nat 9.
Definition newline : ascii := ascii_of_nat 10.
Definition carriage_return : ascii := ascii_of_nat 13.

(** [Py_UNICODE_ISPRINTABLE] below 256: not a control character (C0, DEL, C1),
    not the no-break space (Zs) and not the soft hyphen (Cf). *)
Definition is_printable (c : ascii) : bool :=
  let n := nat_of_ascii c in
  (Nat.leb 32 n && Nat.ltb n 127) || (Nat.leb 161 n && negb (Nat.eqb n 173)).

(** [\xhh] with two lowercase hex digits ([Py_hexdigits]). *)
Definition hex_escape (c : ascii) : string :=
  let n := nat_of_ascii c in
  String "\" (String "x" (String (hex_digit (n / 16)) (String (hex_digit (n mod 16)) ""))).

(** One character of the loop of [unicode_repr]. *)
Definition repr_char (quote c : ascii) : string :=
  let n := nat_of_ascii c in
  if (c =? quote)%char || (c =? "\")%char then String "\" (String c "")
  else if (c =? tab)%char then "\t"
  else if (c =? newline)%char then "\n"
  else if (c =? carriage_return)%char then "\r"
  else if Nat.ltb n 32 || Nat.eqb n 127 then hex_escape c
  else if Nat.ltb n 127 then String c ""
  else if is_printable c then String c ""
  else hex_escape c.

(** The text that a per-character loop writes: [f c] for each [c], in order. *)
Fixpoint str_concat_map (f : ascii -> string) (s : string) : string :=
  match s with
  | EmptyString => ""
  | String c s' => f c +:+ str_concat_map f s'
  end.

(** The loop of [unicode_repr] between the quotes. *)
Definition repr_body (quote : ascii) (s : string) : string := str_concat_map (repr_char quote) s.

(** The quote of [unicode_repr]: the double quote [dquote] when the text has a
    single quote and no double quote, the single quote otherwise. *)
Definition repr_quote (s : string) : ascii :=
  if char_in "'" s then (if char_in dquote s then "'"%char else dquote) else "'"%char.

(** [repr(s)] for a [str]. *)
Definition py_repr (s : string) : string :=
  let quote := repr_quote s in String quote (repr_body quote s +:+ String quote "").

Definition is_ascii_char (c : ascii) : bool := Nat.ltb (nat_of_ascii c) 128.

Fixpoint str_is_ascii (s : string) : bool :=
  match s with
  | EmptyString => true
  | String c s' => is_ascii_char c && str_is_ascii s'
  end.

(** The [backslashreplace] error handler of the ASCII encoder, below 256. *)
Definition backslashreplace_char (c : ascii) : string :=
  if is_ascii_char c then String c "" else hex_escape c.

Definition backslashreplace (s : string) : string := str_concat_map backslashreplace_char s.

(** [ascii(s)] ([PyObject_ASCII]): the repr when it is ASCII, else the repr
    encoded with [backslashreplace]. *)
Definition py_ascii (s : string) : string :=
  let r := py_repr s in if str_is_ascii r then r else backslashreplace r.

(** The built-ins of [Formatter] on [str] values. What follows an attribute that
    exists on a [str] ([b_attr]) stays a parameter. *)
Definition py_builtins (attr : string -> string -> string -> res string) : Builtins :=
  mk_builtins py_repr py_ascii str_format attr.

(** ** Reference definitions for the theorems *)

(** [s] does not start with a digit, so the digit loop stops before it. *)
Definition no_leading_digit (s : string) : bool :=
  match s with EmptyString => true | String c _ => negb (is_digit c) end.

(** Every character is a decimal digit. *)
Fixpoint str_isdigit_aux (s : string) : bool :=
  match s with
  | EmptyString => true
  | String c s' => is_digit c && str_isdigit_aux s'
  end.

(** The value of a run of decimal digits read after [acc]. *)
Fixpoint decimal_value (acc : Z) (s : string) : Z :=
  match s with
  | EmptyString => acc
  | String c s' => decimal_value (acc * 10 + digit_value c)%Z s'
  end.

(** A spec that is a width and nothing else: digits, the first not the ['0'] flag. *)
Definition width_digits (ds : string) : bool :=
  match ds with
  | EmptyString => false
  | String c _ => negb (c =? "0")%char && str_isdigit_aux ds
  end.

(** The number of characters of the value that [format_string_internal] keeps. *)
Definition shown_length (value : string) (f : InternalFormatSpec) : Z :=
  let len := Z.of_nat (String.length value) in
  if ((precision f >=? 0) && (len >=? precision f))%Z then precision f else len.

(** ** [get_integer] reads a [Py_ssize_t] and refuses anything wider *)

Lemma is_digit_value c : is_digit c = true -> (0 <= digit_value c <= 9)%Z.
Proof.
  unfold is_digit, digit_value. intros [H1 H2]%andb_prop.
  apply Nat.leb_le in H1, H2. lia.
Qed.

(** The overflow test of [get_integer] is exact: it fires iff the next
    multiply-add would exceed [PY_SSIZE_T_MAX]. *)
Lemma overflow_test_iff acc d :
  (0 <= d <= 9)%Z ->
  (acc >? (PY_SSIZE_T_MAX - d) / 10)%Z = (PY_SSIZE_T_MAX <? acc * 10 + d)%Z.
Proof.
  intros Hd.
  pose proof (Z.div_mod (PY_SSIZE_T_MAX - d) 10 ltac:(lia)).
  pose proof (Z.mod_pos_bound (PY_SSIZE_T_MAX - d) 10 ltac:(lia)).
  destruct (Z.gtb_spec acc ((PY_SSIZE_T_MAX - d) / 10)),
           (Z.ltb_spec PY_SSIZE_T_MAX (acc * 10 + d)); lia.
Qed.

Lemma decimal_value_ge acc ds :
  str_isdigit_aux ds = true -> (0 <= acc)%Z -> (acc <= decimal_value acc ds)%Z.
Proof.
  revert acc. induction ds as [|c ds IH]; intros acc Hds Hacc; simpl; [lia|].
  apply andb_prop in Hds as [Hc Hds]. apply is_digit_value in Hc.
  specialize (IH (acc * 10 + digit_value c)%Z Hds ltac:(lia)). lia.
Qed.

Lemma get_integer_loop_digits acc n ds rest :
  str_isdigit_aux ds = true -> no_leading_digit rest = true ->
  (0 <= acc <= PY_SSIZE_T_MAX)%Z ->
  get_integer_loop acc n (ds +:+ rest) =
    if (decimal_value acc ds <=? PY_SSIZE_T_MAX)%Z
    then Ok (decimal_value acc ds, n + String.length ds, rest)
    else Exc (ValueError "Too many decimal digits in format string").
Proof.
  revert acc n. induction ds as [|c ds IH]; intros acc n Hds Hrest Hacc; simpl.
  - destruct (Z.leb_spec acc PY_SSIZE_T_MAX); [|lia]. rewrite Nat.add_0_r.
    destruct rest as [|c r]; simpl in *; [done|]. apply negb_true_iff in Hrest. by rewrite Hrest.
  - apply andb_prop in Hds as [Hc Hds]. rewrite Hc.
    pose proof (is_digit_value c Hc) as Hd. rewrite overflow_test_iff by done.
    destruct (Z.ltb_spec PY_SSIZE_T_MAX (acc * 10 + digit_value c)).
    + pose proof (decimal_value_ge (acc * 10 + digit_value c) ds Hds ltac:(lia)).
      destruct (Z.leb_spec (decimal_value (acc * 10 + digit_value c) ds) PY_SSIZE_T_MAX);
        [lia | done].
    + rewrite IH by (done || lia). by rewrite Nat.add_succ_r.
Qed.


(** ** Padding and truncation in [format_string_internal] *)

Lemma fill_string_length n c : String.length (fill_string n c) = n.
Proof. induction n; simpl; auto. Qed.

Lemma substring_0_length k s :
  String.length (String.substring 0 k s) = Nat.min k (String.length s).
Proof.
  revert k. induction s as [|c s IH]; intros [|k]; simpl; auto.
Qed.

Lemma substring_0_full s : String.substring 0 (String.length s) s = s.
Proof. induction s as [|c s IH]; simpl; congruence. Qed.

(** [calc_padding] splits [total - nchars] between the two sides, and the total
    is the larger of the width and the text. *)
Lemma calc_padding_spec nchars w al lpad rpad total :
  (0 <= nchars)%Z -> calc_padding nchars w al = (lpad, rpad, total) ->
  (0 <= lpad /\ 0 <= rpad /\ lpad + nchars + rpad = total /\ total = Z.max w nchars)%Z.
Proof.
  unfold calc_padding. intros Hn [= <- <- <-].
  set (t := if (0 <=? w)%Z then (if (nchars >? w)%Z then nchars else w) else nchars).
  assert (Ht : t = Z.max w nchars /\ (nchars <= t)%Z).
  { subst t. destruct (Z.leb_spec 0 w), (Z.gtb_spec nchars w); lia. }
  pose proof (Z.div_mod (t - nchars) 2 ltac:(lia)).
  pose proof (Z.mod_pos_bound (t - nchars) 2 ltac:(lia)).
  destruct (al =? ">")%char, (al =? "^")%char; lia.
Qed.

Lemma padded_unchanged value f :
  (width f <= Z.of_nat (String.length value))%Z ->
  padded value f (Z.of_nat (String.length value)) = value.
Proof.
  intros Hw. unfold padded.
  destruct (calc_padding _ (width f) (align f)) as [[l r] t] eqn:E.
  apply calc_padding_spec in E as (? & ? & ? & ?); [|lia].
  replace l with 0%Z by lia. replace r with 0%Z by lia.
  rewrite Nat2Z.id, substring_0_full. simpl. apply str_app_nil_r.
Qed.

(** The fast path of [format_string_internal], which returns the value unchanged
    when neither the width nor the precision applies, agrees with the general path:
    whenever the flag checks pass, the result is the first [shown_length]
    characters padded with [calc_padding]'s fill on each side. *)
Lemma format_string_internal_fast_path value f :
  sign f = nul -> no_neg_0 f = false -> alternate f = false ->
  (align f =? "=")%char = false ->
  format_string_internal value f = Ok (padded value f (shown_length value f)).
Proof.
  intros Hs Hz Ha Heq. unfold format_string_internal, shown_length.
  rewrite Hs, Hz, Ha, Heq, Ascii.eqb_refl. simpl.
  set (len := Z.of_nat (String.length value)).
  destruct ((width f =? -1) || (width f <=? len))%Z eqn:Hw,
           ((precision f =? -1) || (precision f >=? len))%Z eqn:Hp; simpl; try done.
  f_equal. apply orb_true_iff in Hw, Hp.
  assert (Hlen : (if ((precision f >=? 0) && (len >=? precision f))%Z then precision f
                  else len) = len).
  { destruct Hp as [Hp|Hp]; [apply Z.eqb_eq in Hp | apply Z.geb_le in Hp];
      destruct (Z.geb_spec (precision f) 0), (Z.geb_spec len (precision f)); simpl; lia. }
  rewrite Hlen. symmetry. apply padded_unchanged.
  destruct Hw as [Hw|Hw]; [apply Z.eqb_eq in Hw | apply Z.leb_le in Hw]; lia.
Qed.


(** ** A spec that is only a width *)

Lemma digit_neq c d : is_digit c = true -> is_digit d = false -> (c =? d)%char = false.
Proof. intros Hc Hd. destruct (Ascii.eqb_spec c d) as [->|]; congruence. Qed.

Lemma accept_digits p ds :
  (forall c, is_digit c = true -> p c = false) -> str_isdigit_aux ds = true ->
  accept p ds = (None, ds).
Proof.
  intros Hp Hds. destruct ds as [|c r]; [done|]. apply andb_prop in Hds as [Hc _].
  simpl. by rewrite Hp.
Qed.

Lemma alignment_token_digit c : is_digit c = true -> is_alignment_token c = false.
Proof. intros Hc. unfold is_alignment_token. by rewrite !(digit_neq c). Qed.

Lemma parse_fill_align_digits d ds :
  str_isdigit_aux ds = true -> parse_fill_align d ds = (" "%char, d, false, false, ds).
Proof.
  destruct ds as [|c [|c2 r]]; simpl; [done|..]; intros Hds;
    repeat match goal with H : _ && _ = true |- _ => apply andb_prop in H as [? ?] end;
    by rewrite ?alignment_token_digit.
Qed.

(** A spec made of a width alone parses to that width, with the fill and the
    alignment of a [str], when the width fits in a [Py_ssize_t]. *)
Lemma parse_width_spec ds :
  width_digits ds = true ->
  parse_internal_render_format_spec "str" ds "s"%char "<"%char =
    if (decimal_value 0 ds <=? PY_SSIZE_T_MAX)%Z
    then Ok (mk_format_spec " "%char "<"%char false false nul (decimal_value 0 ds)
               LT_NO_LOCALE (-1) "s"%char)
    else Exc (ValueError "Too many decimal digits in format string").
Proof.
  destruct ds as [|c r] eqn:Eds; [done|]. rewrite <- Eds. intros Hw.
  assert (Hds : str_isdigit_aux ds = true) by (subst; by apply andb_prop in Hw as [_ ?]).
  assert (H0 : accept (is_char "0") ds = (None, ds)).
  { subst. apply andb_prop in Hw as [H0 _]. apply negb_true_iff in H0.
    simpl. unfold is_char. by rewrite H0. }
  unfold parse_internal_render_format_spec.
  rewrite parse_fill_align_digits by done.
  rewrite !accept_digits by (done || (intros d Hd; unfold is_sign_element, is_char;
                                      by rewrite ?(digit_neq d))).
  assert (Hg : get_integer_loop 0 0 ds =
    if (decimal_value 0 ds <=? PY_SSIZE_T_MAX)%Z then Ok (decimal_value 0 ds, String.length ds, "")
    else Exc (ValueError "Too many decimal digits in format string")).
  { rewrite <- (str_app_nil_r ds) at 1.
    rewrite get_integer_loop_digits by (done || (unfold PY_SSIZE_T_MAX; lia)). done. }
  unfold parse_zero. rewrite H0. unfold get_integer. rewrite Hg.
  destruct (_ <=? _)%Z; [|done]. simpl.
  replace (Nat.eqb (String.length ds) 0) with false by (subst; done). done.
Qed.

(** [str.__format__] with a width alone pads the value on the right with spaces
    up to the width, and refuses a width beyond [PY_SSIZE_T_MAX]. *)
Lemma str_format_width value ds :
  width_digits ds = true ->
  str_format value ds =
    if (decimal_value 0 ds <=? PY_SSIZE_T_MAX)%Z
    then Ok (value +:+ fill_string (Z.to_nat (decimal_value 0 ds -
                                              Z.of_nat (String.length value))) " "%char)
    else Exc (ValueError "Too many decimal digits in format string").
Proof.
  intros Hw. unfold str_format.
  replace (String.eqb ds "") with false by (destruct ds; done).
  rewrite parse_width_spec by done.
  destruct (Z.leb_spec (decimal_value 0 ds) PY_SSIZE_T_MAX); [|done]. simpl.
  rewrite format_string_internal_fast_path by done. f_equal.
  assert (Hv : (0 <= decimal_value 0 ds)%Z).
  { apply decimal_value_ge; [|lia]. destruct ds; [done|]. by apply andb_prop in Hw as [_ ?]. }
  unfold padded, shown_length, calc_padding. simpl.
  set (len := Z.of_nat (String.length value)).
  replace (Z.to_nat len) with (String.length value) by (unfold len; by rewrite Nat2Z.id).
  rewrite substring_0_full. simpl. rewrite str_app_nil_l. do 2 f_equal.
  destruct (Z.leb_spec 0 (decimal_value 0 ds)); [|lia].
  destruct (Z.gtb_spec len (decimal_value 0 ds)); lia.
Qed.

Lemma str_isdigit_brace_free ds : str_isdigit_aux ds = true -> brace_free ds = true.
Proof.
  induction ds as [|c ds IH]; [done|]. simpl. intros [Hc Hds]%andb_prop.
  unfold is_brace. by rewrite !(digit_neq c), IH.
Qed.

Lemma width_digits_brace_free ds : width_digits ds = true -> brace_free ds = true.
Proof. destruct ds; [done|]. intros [_ H]%andb_prop. by apply str_isdigit_brace_free. Qed.

(** A field [{question:ds}] whose spec is a width renders the value of [question]
    through [str.__format__] with that width. *)
Lemma format_question_width attr kwargs ds v :
  width_digits ds = true -> kwargs !! "question" = Some v ->
  format (py_builtins attr) kwargs ("{question:" +:+ ds +:+ "}") = str_format v ds.
Proof.
  intros Hw Hv. pose proof (width_digits_brace_free ds Hw) as Hb.
  rewrite (format_chunks _ _ _ _ (parse_question_spec ds Hb)).
  unfold render_chunks, render_field, spec_renderer. cbn [field_name conversion format_spec].
  unfold get_field. cbn -[lookup vformat]. rewrite Hv. cbn -[vformat].
  rewrite vformat_brace_free by done. simpl. unfold format_field.
  replace (String.eqb ds "") with false by (destruct ds; done). simpl.
  destruct (str_format v ds); simpl; [|done]. by rewrite str_app_nil_r.
Qed.
