(* ===== verification/History.v ===== *)
(** * The session store: [conversation_history]

    The spec (section 4.1) describes a session store with [append] and [snapshot].
    Here that contract is the class [SessionStore] with its laws
    [SessionStoreLaws]. The script implements it with the module-level Python list
    [conversation_history] (src/app.py line 20), [list.append] (lines 28 and 38) and
    iteration over the list (lines 31 and 57). [Generate] reaches the list through
    the class's operations [ss_append] and [ss_snapshot]; [py_list_store_laws]
    shows that the Python list meets the contract. *)

From S2P Require Import Prelude.


(** A turn as the script stores it: the tuple [(role, text)]. *)
Definition turn : Type := string * string.

(** The roles the script writes (lines 28, 31 and 38). *)
Definition role_user : string := "user".
Definition role_assistant : string := "assistant".
Definition role_system : string := "system".

(** What a session store offers its clients. *)
Class SessionStore (T : Type) := {
  ss_empty : T;
  ss_append : T -> turn -> T;
  ss_snapshot : T -> list turn
}.

(** What it promises: the snapshot of the empty store is empty, and an append adds
    its turn at the end of the snapshot, with nothing lost, reordered or merged. *)
Class SessionStoreLaws (T : Type) `{SessionStore T} := {
  snapshot_empty : ss_snapshot ss_empty = [];
  snapshot_append t x : ss_snapshot (ss_append t x) = ss_snapshot t ++ [x]
}.

(** The Python list [conversation_history]: [[]] at line 20, [list.append]
    at lines 28 and 38, and iteration over the list itself. *)
Definition conversation_history_init : list turn := [].

Definition list_append (l : list turn) (x : turn) : list turn := l ++ [x].

#[export] Instance py_list_store : SessionStore (list turn) := {
  ss_empty := conversation_history_init;
  ss_append := list_append;
  ss_snapshot := id
}.

#[export] Instance py_list_store_laws : SessionStoreLaws (list turn).
Proof. split; reflexivity. Qed.

(** The laws as rewriting rules for the [py] automation. *)
#[export] Hint Rewrite @snapshot_append @snapshot_empty : py.
