(* ===== verification/Chain.v ===== *)
(** * The LangChain pipeline of [generate_response]

    Lines 24-35 of src/app.py build [ChatGroq(model=engine)], then
    [ChatPromptTemplate.from_messages([("system", ...)] + conversation_history)],
    then the chain [prompt | llm | output_parser], and call
    [chain.invoke({"question": question})]. This file models:
    - the message types and [_create_template_from_message_type]
      ([message_type_of_role]);
    - [from_messages]: every [(role, text)] tuple becomes an f-string template, so
      its text is parsed by [PyFormat.parse];
    - the input check of [BasePromptTemplate.invoke] ([validate_input]);
    - [format_messages], which renders every template with [PyFormat.format];
    - the client [ChatGroq(model=engine)] as the record [ChatGroqCfg] of the
      parameters it sends, with the defaults of langchain_groq.
    The completion service itself, [completion], is a parameter of [Generate]. *)

From Stdlib Require QArith.
From S2P Require Import Prelude PyFormat History.

Local Open Scope py_scope.

(** LangChain's message classes that [from_messages] can build here. *)
Inductive msg_type := SystemMessage | HumanMessage | AIMessage.

#[export] Instance msg_type_eq_dec : EqDecision msg_type.
Proof. solve_decision. Qed.

(** A formatted message, as the prompt hands it to the model. *)
Record message := mk_message { mtype : msg_type; content : string }.

#[export] Instance message_eq_dec : EqDecision message.
Proof. solve_decision. Qed.

(** A message template of the prompt: its class, its text and its variables. *)
Record msg_template := mk_template {
  tmpl_type : msg_type;
  tmpl_text : string;
  tmpl_vars : list string
}.

(** [_create_template_from_message_type] on the role of a tuple. The role
    ["placeholder"] never occurs in the script and is not modelled. *)
Definition message_type_of_role (role : string) : res msg_type :=
  if (String.eqb role "human" || String.eqb role role_user)%bool then Ok HumanMessage
  else if (String.eqb role "ai" || String.eqb role role_assistant)%bool then Ok AIMessage
  else if String.eqb role role_system then Ok SystemMessage
  else Exc (ValueError ("Unexpected message type: " +:+ role +:+
             ". Use one of 'human', 'user', 'ai', 'assistant', or 'system'.")).

(** One tuple of [from_messages]: the class from the role, then
    [PromptTemplate.from_template(text)], whose variables come from
    [Formatter().parse(text)]. *)
Definition template_of_turn (t : turn) : res msg_template :=
  let? ty := message_type_of_role t.1 in
  let? chunks := parse t.2 in
  Ok (mk_template ty t.2 (template_variables chunks)).

(** [ChatPromptTemplate.from_messages]. *)
Definition from_messages (ts : list turn) : res (list msg_template) :=
  res_map template_of_turn ts.

(** [input_variables] of the prompt: the variables of all its templates. *)
Definition input_variables (p : list msg_template) : list string :=
  concat (map tmpl_vars p).

(** [BasePromptTemplate._validate_input]: a variable of the prompt that is not a
    key of the input raises [KeyError] before anything is formatted. *)
Definition validate_input (p : list msg_template) (input : gmap string string) : res unit :=
  match list_find (fun v => input !! v = None) (input_variables p) with
  | Some (_, v) => Exc (KeyError ("Input to ChatPromptTemplate is missing variables " +:+ v))
  | None => Ok tt
  end.

(** The fixed system turn of line 31. *)
Definition system_turn : turn := (role_system, "You are a helpful Assistant").

(** The tuples passed to [from_messages] at line 31. *)
Definition prompt_turns (history : list turn) : list turn := system_turn :: history.

(** The input of [chain.invoke] at line 35. *)
Definition chain_input (question : string) : gmap string string :=
  {[ "question" := question ]}.

(** The client of line 24. [ChatGroq(model=engine)] passes no temperature and no
    [max_tokens], so langchain_groq's defaults apply: temperature 0.7 and no token
    limit. *)
Record ChatGroqCfg := mk_groq_cfg {
  cfg_model : string;
  cfg_temperature : QArith_base.Q;
  cfg_max_tokens : option nat
}.

Definition chat_groq (engine : string) : ChatGroqCfg :=
  mk_groq_cfg engine (QArith_base.Qmake 7 10) None.

Section Format.
Context (B : Builtins).

(** [ChatPromptTemplate.format_messages]: every template rendered with the input. *)
Definition format_messages (p : list msg_template) (input : gmap string string)
    : res (list message) :=
  res_map (fun t => let? c := format B input (tmpl_text t) in Ok (mk_message (tmpl_type t) c)) p.

(** The prompt step of [chain.invoke]: validation, then formatting. *)
Definition prompt_invoke (p : list msg_template) (input : gmap string string)
    : res (list message) :=
  let? _ := validate_input p input in format_messages p input.

End Format.

(** The prompt part of lines 31 and 35: [from_messages], then [invoke]. *)
Definition prompt_pipeline (B : Builtins) (ts : list turn) (input : gmap string string)
    : res (list message) :=
  let? p := from_messages ts in prompt_invoke B p input.

(** A turn that the prompt passes through unchanged: a role LangChain knows and a
    text without braces. *)
Definition plain_turn (t : turn) : bool :=
  is_ok (message_type_of_role t.1) && brace_free t.2.

(** The message a plain turn becomes. *)
Definition to_message (t : turn) : message :=
  mk_message (match message_type_of_role t.1 with Ok ty => ty | Exc _ => HumanMessage end) t.2.

(** A turn that makes the prompt raise: its text does not parse, or it names a
    variable other than [question], the only key of the input. *)
Definition poisoned_turn (t : turn) : bool :=
  match template_of_turn t with
  | Exc _ => true
  | Ok tm => existsb (fun v => negb (String.eqb v "question")) (tmpl_vars tm)
  end.

(** The constructor [ChatGroq(model=engine)] (line 24). langchain_groq takes the key
    from the environment variable [GROQ_API_KEY], and the Groq client raises
    [GroqError] when there is none. A key that is present but wrong fails only at
    the first request, inside the completion service. *)
Definition groq_api_key_var : string := "GROQ_API_KEY".

Definition chat_groq_init (env : gmap string string) (engine : string) : res ChatGroqCfg :=
  match env !! groq_api_key_var with
  | Some _ => Ok (chat_groq engine)
  | None => Exc (GroqError ("The api_key client option must be set either by passing " +:+
                 "api_key to the client or by setting the GROQ_API_KEY environment variable"))
  end.

Lemma template_of_plain_turn t :
  plain_turn t = true -> template_of_turn t = Ok (mk_template (mtype (to_message t)) t.2 []).
Proof.
  unfold plain_turn, template_of_turn, to_message.
  destruct (message_type_of_role t.1); [|done]. intros [_ H]%andb_prop. simpl.
  destruct (template_variables_brace_free _ H) as (cs & -> & Hv). simpl. by rewrite Hv.
Qed.

Section Plain.
Context (B : Builtins).

Lemma prompt_pipeline_plain ts input :
  (forall t, t ∈ ts -> plain_turn t = true) ->
  prompt_pipeline B ts input = Ok (map to_message ts).
Proof.
  intros H. unfold prompt_pipeline, from_messages, prompt_invoke.
  rewrite (res_map_ext_ok _ (fun t => mk_template (mtype (to_message t)) t.2 []))
    by (intros t Ht; by apply template_of_plain_turn, H).
  unfold validate_input, input_variables. simpl.
  rewrite map_map. simpl. rewrite concat_map_nil; simpl. unfold format_messages.
  rewrite res_map_ext_ok with (g := fun tm => mk_message (tmpl_type tm) (tmpl_text tm)).
  - rewrite map_map. done.
  - intros tm Htm. apply list_elem_of_fmap in Htm as (t & -> & Ht). simpl.
    unfold format. rewrite vformat_brace_free; [done|]. specialize (H t Ht).
    unfold plain_turn in H. by apply andb_prop in H as [_ H].
Qed.

(** Plain turns followed by one turn that is a template: the prompt is the plain
    turns as they are and the last one as [Formatter.format] renders it, or the
    exception rendering raises. *)
Lemma prompt_pipeline_plain_snoc ts t tm input :
  (forall x, x ∈ ts -> plain_turn x = true) ->
  template_of_turn t = Ok tm -> Forall (fun v => is_Some (input !! v)) (tmpl_vars tm) ->
  prompt_pipeline B (ts ++ [t]) input =
    let? c := format B input (tmpl_text tm) in
    Ok (map to_message ts ++ [mk_message (tmpl_type tm) c]).
Proof.
  intros H Ht Hv. unfold prompt_pipeline, from_messages.
  rewrite res_map_app, (res_map_ext_ok _ (fun t => mk_template (mtype (to_message t)) t.2 []))
    by (intros x Hx; by apply template_of_plain_turn, H).
  simpl. rewrite Ht. simpl. unfold prompt_invoke, validate_input, input_variables.
  rewrite map_app, concat_app, map_map. simpl. rewrite concat_map_nil, app_nil_r. simpl.
  destruct (list_find _ (tmpl_vars tm)) as [[i v]|] eqn:Ef.
  { exfalso. apply list_find_Some in Ef as (Hi & Hnone & _).
    rewrite Forall_lookup in Hv. destruct (Hv i v Hi) as [? Hs]. congruence. }
  simpl. unfold format_messages. rewrite res_map_app.
  rewrite (res_map_ext_ok _ (fun tm => mk_message (tmpl_type tm) (tmpl_text tm))).
  - simpl. rewrite map_map. simpl. by destruct (format B input (tmpl_text tm)).
  - intros tm' Htm. apply list_elem_of_fmap in Htm as (x & -> & Hx). simpl.
    unfold format. rewrite vformat_brace_free; [done|]. specialize (H x Hx).
    unfold plain_turn in H. by apply andb_prop in H as [_ H].
Qed.

Lemma prompt_pipeline_poisoned ts t q :
  t ∈ ts -> poisoned_turn t = true ->
  exists e, prompt_pipeline B ts (chain_input q) = Exc e.
Proof.
  intros Ht Hp. unfold prompt_pipeline.
  destruct (from_messages ts) as [p|e] eqn:Ep; simpl; [|by eauto].
  destruct (res_map_elem _ _ _ _ Ep Ht) as (tm & Htm & Hin).
  unfold poisoned_turn in Hp. rewrite Htm in Hp.
  apply existsb_exists in Hp as (v & Hv & Hne). apply negb_true_iff in Hne.
  unfold prompt_invoke, validate_input.
  destruct (list_find _ _) as [[i w]|] eqn:Ef; simpl; [by eauto|].
  rewrite list_find_None, Forall_forall in Ef. exfalso. apply (Ef v).
  - unfold input_variables. apply list_elem_of_In, in_concat. exists (tmpl_vars tm).
    split; [apply in_map, list_elem_of_In, Hin | done].
  - unfold chain_input. rewrite lookup_singleton_ne; [done|].
    intros E. rewrite <- E, String.eqb_refl in Hne. done.
Qed.

End Plain.
