(* ===== verification/Generate.v ===== *)
(** * [generate_response] (src/app.py lines 23-40)

    The function mutates two things that outlive it: the module-level list
    [conversation_history] and, through the completion service, the outside world.
    Here both live in the state [World], together with [os.environ], which
    [ChatGroq] reads. The completion calls are recorded in [llm_log], so theorems can
    say which prompts reached the model. [generate_response] runs in the [py] monad
    of [Prelude]: an exception keeps the mutations made before it, as in Python.

    The completion service [complete] (ChatGroq's request, then [StrOutputParser],
    which returns the reply's text) and the Python built-ins [B] are section
    parameters. Every theorem holds for all of them, except the one on a width
    field, which uses CPython's [str.__format__] ([PyStr.py_builtins]). The last
    group of theorems follows a question through the template of line 31: doubled
    braces are unescaped, and a width field pads the request. *)

From Stdlib Require QArith.
From S2P Require Import Prelude PyFormat PyStr History Chain.

Local Open Scope py_scope.

(** The state the script's code reads and writes. *)
Record World := mk_world {
  env : gmap string string;
  history : list turn;
  llm_log : list (ChatGroqCfg * list message)
}.

Definition set_history (h : list turn) (w : World) : World :=
  mk_world (env w) h (llm_log w).

Definition log_call (c : ChatGroqCfg * list message) (w : World) : World :=
  mk_world (env w) (history w) (llm_log w ++ [c]).

(** A completion service: the client's parameters and the prompt, to the reply. *)
Definition completion : Type := ChatGroqCfg -> list message -> res string.

(** Sample inputs for concrete runs: a service that always answers [reply], one that
    always fails, and a process with a key and an empty history. *)
Definition echo_completion (reply : string) : completion := fun _ _ => Ok reply.
Definition failing_completion : completion := fun _ _ => Exc (GroqError "Service Unavailable").
Definition example_world : World := mk_world {[ "GROQ_API_KEY" := "gsk-test" ]} [] [].

Definition user_turn (q : string) : turn := (role_user, q).
Definition assistant_turn (a : string) : turn := (role_assistant, a).

(** One call's arguments: question, engine, temperature, max_token. *)
Definition request : Type := string * string * QArith_base.Q * nat.

Definition req_question (r : request) : string := r.1.1.1.

Section Generate.
Context (B : Builtins) (complete : completion).

(** [conversation_history.append(t)]. *)
Definition history_append (t : turn) : py World unit :=
  py_modify (fun w => set_history (ss_append (history w) t) w).

(** The model step of [chain.invoke]: one request to the service, logged. *)
Definition llm_call (cfg : ChatGroqCfg) (msgs : list message) : py World string :=
  py_modify (log_call (cfg, msgs)) ;;; py_lift (complete cfg msgs).

(** [generate_response(question, engine, temperature, max_token)]. The arguments
    [temperature] and [max_token] are accepted and never used, as in the source. *)
Definition generate_response (question engine : string) (temperature : QArith_base.Q)
    (max_token : nat) : py World string :=
  let* w := py_get in
  let* llm := py_lift (chat_groq_init (env w) engine) in
  history_append (role_user, question) ;;;
  let* w' := py_get in
  let* msgs := py_lift (prompt_pipeline B (prompt_turns (ss_snapshot (history w')))
                                        (chain_input question)) in
  let* answer := llm_call llm msgs in
  history_append (role_assistant, answer) ;;;
  py_ret answer.

(** Successive calls of [generate_response] on the same state, each one's exception
    caught by its caller. *)
Fixpoint generate_seq (reqs : list request) (w : World) : World * list (res string) :=
  match reqs with
  | [] => (w, [])
  | (q, e, t, m) :: rs =>
      let '(w1, r) := generate_response q e t m w in
      let '(w2, out) := generate_seq rs w1 in
      (w2, r :: out)
  end.

End Generate.

(** The messages of the prompt of a call whose turns are all plain. *)
Definition plain_prompt (h : list turn) (q : string) : list message :=
  map to_message (prompt_turns (h ++ [user_turn q])).

(** The prompt of a call on an empty history: the system message and one human
    message, the question as the template renders it. *)
Definition fresh_prompt (msgs : list message) : Prop :=
  exists c, msgs = [mk_message SystemMessage "You are a helpful Assistant";
                    mk_message HumanMessage c].

(** The prompt of a call on an empty history for the question [q]: the system
    message and [q] as its template renders it with the input [{"question": q}]. *)
Definition question_prompt (B : Builtins) (q : string) (msgs : list message) : Prop :=
  exists c, format B (chain_input q) q = Ok c /\
            msgs = [mk_message SystemMessage "You are a helpful Assistant";
                    mk_message HumanMessage c].

Definition plain_history (w : World) : Prop := forall x, x ∈ history w -> plain_turn x = true.

(** ** Every branch of [generate_response] *)

Section Contract.
Context (B : Builtins) (complete : completion).


Lemma generate_response_no_client q engine t m w e :
  chat_groq_init (env w) engine = Exc e ->
  generate_response B complete q engine t m w = (w, Exc e).
Proof. intros H. unfold generate_response. py_simp. by rewrite H. Qed.

(** Once the client exists, the branches of lines 28-40: the prompt raises, the
    service raises, or the answer is appended. *)
Lemma generate_response_client q engine t m w cfg :
  chat_groq_init (env w) engine = Ok cfg ->
  generate_response B complete q engine t m w =
    let h1 := history w ++ [user_turn q] in
    match prompt_pipeline B (prompt_turns h1) (chain_input q) with
    | Exc e => (set_history h1 w, Exc e)
    | Ok msgs =>
        match complete cfg msgs with
        | Ok a => (mk_world (env w) (h1 ++ [assistant_turn a]) (llm_log w ++ [(cfg, msgs)]), Ok a)
        | Exc e => (mk_world (env w) h1 (llm_log w ++ [(cfg, msgs)]), Exc e)
        end
    end.
Proof.
  intros H. unfold generate_response, history_append, llm_call, log_call, set_history.
  py_simp. rewrite H. unfold list_append.
  destruct (prompt_pipeline _ _ _) as [msgs|e]; [|done].
  by destruct (complete cfg msgs).
Qed.

Lemma chat_groq_init_ok env0 engine :
  is_Some (env0 !! groq_api_key_var) -> chat_groq_init env0 engine = Ok (chat_groq engine).
Proof. unfold chat_groq_init. by intros [k ->]. Qed.


Lemma prompt_plain_turns h q :
  (forall x, x ∈ h -> plain_turn x = true) -> brace_free q = true ->
  prompt_pipeline B (prompt_turns (h ++ [user_turn q])) (chain_input q) = Ok (plain_prompt h q).
Proof.
  intros Hh Hq. apply prompt_pipeline_plain. intros x Hx.
  apply elem_of_cons in Hx as [->|Hx]; [done|].
  apply elem_of_app in Hx as [Hx|Hx]; [by apply Hh|].
  apply list_elem_of_singleton in Hx as ->. unfold plain_turn. simpl. by rewrite Hq.
Qed.

Section PlainCall.
Context (q engine : string) (t : QArith_base.Q) (m : nat) (w : World).
Hypothesis Hkey : is_Some (env w !! groq_api_key_var).
Hypothesis Hhist : forall x, x ∈ history w -> plain_turn x = true.
Hypothesis Hq : brace_free q = true.

(** C2. When the key is set and no text has braces, a successful call appends
    exactly the user turn and then the assistant turn, returns the reply, and
    sends the model one prompt: the system turn, then the whole history with the new
    question at its end. *)
Theorem generate_response_success a :
  complete (chat_groq engine) (plain_prompt (history w) q) = Ok a ->
  generate_response B complete q engine t m w =
    (mk_world (env w) (history w ++ [user_turn q; assistant_turn a])
              (llm_log w ++ [(chat_groq engine, plain_prompt (history w) q)]), Ok a).
Proof.
  intros Ha. rewrite (generate_response_client _ _ _ _ _ (chat_groq engine))
    by (by apply chat_groq_init_ok).
  simpl. rewrite prompt_plain_turns by done. rewrite Ha. by rewrite <- app_assoc.
Qed.

(** C3. When the key is set and no text has braces, and the service raises, the
    exception propagates, the request was sent with the whole history, and the user
    turn stays appended: the history grows by exactly one turn. *)
Theorem generate_response_service_error e :
  complete (chat_groq engine) (plain_prompt (history w) q) = Exc e ->
  generate_response B complete q engine t m w =
    (mk_world (env w) (history w ++ [user_turn q])
              (llm_log w ++ [(chat_groq engine, plain_prompt (history w) q)]), Exc e).
Proof.
  intros He. rewrite (generate_response_client _ _ _ _ _ (chat_groq engine))
    by (by apply chat_groq_init_ok).
  simpl. rewrite prompt_plain_turns by done. by rewrite He.
Qed.

End PlainCall.

(** C10. Without [GROQ_API_KEY] in the environment, [ChatGroq(model=engine)] at
    line 24 raises before line 28: nothing is appended and the model is not called.
    The spec's "the user turn remains appended" does not hold for this failure. *)
Theorem generate_response_missing_key q engine t m w :
  env w !! groq_api_key_var = None ->
  exists msg, generate_response B complete q engine t m w = (w, Exc (GroqError msg)).
Proof.
  intros H. eexists. apply generate_response_no_client. unfold chat_groq_init.
  by rewrite H.
Qed.

End Contract.

(** ** Sequences of calls *)


Section Sequences.
Context (B : Builtins) (complete : completion).


Lemma generate_response_poisoned q engine t m w x :
  is_Some (env w !! groq_api_key_var) -> x ∈ history w ++ [user_turn q] ->
  poisoned_turn x = true ->
  exists e, generate_response B complete q engine t m w =
            (set_history (history w ++ [user_turn q]) w, Exc e).
Proof.
  intros Hk Hx Hp. rewrite (generate_response_client B complete q engine t m w (chat_groq engine))
    by (by apply chat_groq_init_ok).
  cbv zeta. destruct (prompt_pipeline_poisoned B (prompt_turns (history w ++ [user_turn q])) x q)
    as [e ->]; [by apply elem_of_cons; right | done | by eauto].
Qed.

(** C4. A turn whose text does not parse as a template, or names a variable other
    than [question], poisons the session. Such a turn can be a question such as
    ["What is {x}?"] or a reply holding code with braces. After it, every later call
    raises before the model is reached, yet each call still appends its question. *)
Theorem poisoned_session reqs w x :
  is_Some (env w !! groq_api_key_var) -> x ∈ history w -> poisoned_turn x = true ->
  let '(w', out) := generate_seq B complete reqs w in
  history w' = history w ++ map (fun r => user_turn (req_question r)) reqs /\
  llm_log w' = llm_log w /\ env w' = env w /\ Forall (fun r => is_ok r = false) out.
Proof.
  revert w. induction reqs as [|[[[q e] t] m] rs IH]; intros w Hk Hx Hp.
  - simpl. by rewrite app_nil_r.
  - simpl. destruct (generate_response_poisoned q e t m w x) as [ex ->];
      [done | set_solver | done |].
    specialize (IH (set_history (history w ++ [user_turn q]) w) Hk).
    destruct (generate_seq B complete rs _) as [w2 out].
    destruct IH as (Hh & Hl & He & Ho); [simpl; set_solver | done |].
    simpl in *. rewrite Hh, <- app_assoc. by repeat split; [..| constructor].
Qed.

(** C12. The model is always called with langchain_groq's defaults, temperature 0.7
    and no token limit, whatever the [temperature] and [max_token] arguments (the
    sidebar sliders): [ChatGroq(model=engine)] receives neither. *)
Theorem generate_response_ignores_sliders q engine t m w w' r :
  generate_response B complete q engine t m w = (w', r) ->
  exists extra, llm_log w' = llm_log w ++ extra /\
    Forall (fun c => cfg_model c.1 = engine /\ cfg_temperature c.1 = QArith_base.Qmake 7 10
                     /\ cfg_max_tokens c.1 = None) extra.
Proof.
  destruct (chat_groq_init (env w) engine) as [cfg|e] eqn:Hc.
  - rewrite (generate_response_client B complete q engine t m w _ Hc). cbv zeta. unfold chat_groq_init in Hc.
    destruct (env w !! _); simplify_eq.
    destruct (prompt_pipeline _ _ _) as [msgs|e]; [destruct (complete _ msgs)|];
      intros [=<- <-]; simpl; [exists [(chat_groq engine, msgs)]..| exists []];
      (split; [by rewrite ?app_nil_r | repeat constructor]).
  - rewrite (generate_response_no_client B complete q engine t m w _ Hc). intros [=<- <-].
    exists []. by rewrite app_nil_r.
Qed.

(** C11. The transcript grows by exactly two turns (user, then assistant) on
    success. On failure it grows by exactly the user turn, except when the client
    cannot be built for lack of [GROQ_API_KEY], where it does not grow. *)
Theorem generate_response_growth q engine t m w w' r :
  generate_response B complete q engine t m w = (w', r) ->
  env w' = env w /\
  match r with
  | Ok a => history w' = history w ++ [user_turn q; assistant_turn a]
  | Exc _ => history w' = history w ++ [user_turn q] \/
             (history w' = history w /\ env w !! groq_api_key_var = None)
  end.
Proof.
  destruct (chat_groq_init (env w) engine) as [cfg|e] eqn:Hc.
  - rewrite (generate_response_client B complete q engine t m w _ Hc). cbv zeta.
    destruct (prompt_pipeline _ _ _) as [msgs|e]; [destruct (complete _ msgs)|];
      intros [=<- <-]; simpl; split; [done | by rewrite <- app_assoc | done | by left
                                     | done | by left].
  - rewrite (generate_response_no_client B complete q engine t m w _ Hc). intros [=<- <-].
    split; [done|]. right. split; [done|]. unfold chat_groq_init in Hc.
    by destruct (env w !! _).
Qed.

End Sequences.


(** ** A question is a template *)

Lemma template_of_user_turn q :
  template_of_turn (user_turn q) =
    let? cs := parse q in Ok (mk_template HumanMessage q (template_variables cs)).
Proof. unfold template_of_turn. simpl. by destruct (parse q). Qed.

Section Templates.
Context (B : Builtins) (complete : completion).

(** With the key set and a plain history, a call whose question parses as a
    template naming at most [question] sends the question as [Formatter.format]
    renders it with [{"question": question}], or raises what rendering raises. The
    history records the question as typed. *)
Lemma generate_response_template q engine t m w cs :
  is_Some (env w !! groq_api_key_var) -> plain_history w ->
  parse q = Ok cs -> Forall (fun v => v = "question") (template_variables cs) ->
  generate_response B complete q engine t m w =
    let h1 := history w ++ [user_turn q] in
    match format B (chain_input q) q with
    | Exc e => (set_history h1 w, Exc e)
    | Ok c =>
        let msgs := map to_message (prompt_turns (history w)) ++ [mk_message HumanMessage c] in
        match complete (chat_groq engine) msgs with
        | Ok a => (mk_world (env w) (h1 ++ [assistant_turn a]) (llm_log w ++ [(chat_groq engine, msgs)]), Ok a)
        | Exc e => (mk_world (env w) h1 (llm_log w ++ [(chat_groq engine, msgs)]), Exc e)
        end
    end.
Proof.
  intros Hk Hh Hp Hv. rewrite (generate_response_client B complete q engine t m w (chat_groq engine))
    by (by apply chat_groq_init_ok).
  cbv zeta. unfold prompt_turns. rewrite app_comm_cons.
  rewrite (prompt_pipeline_plain_snoc B _ _ (mk_template HumanMessage q (template_variables cs))).
  - simpl. by destruct (format B (chain_input q) q).
  - intros x [->|Hx]%elem_of_cons; [reflexivity | by apply Hh].
  - by rewrite template_of_user_turn, Hp.
  - eapply Forall_impl; [exact Hv|]. intros v ->. unfold chain_input.
    rewrite lookup_singleton. by eexists.
Qed.

(** C19. Doubled braces in a question reach the model unescaped: for a question
    [a{{b}}] with brace-free [a] and [b], the human message sent is [a{b}], while
    the history records the question as typed. The spec passes each turn as its
    text. *)
Theorem generate_response_doubled_braces a b engine t m w :
  is_Some (env w !! groq_api_key_var) -> plain_history w ->
  brace_free a = true -> brace_free b = true ->
  let q := a +:+ "{{" +:+ b +:+ "}}" in
  let msgs := map to_message (prompt_turns (history w)) ++
              [mk_message HumanMessage (a +:+ "{" +:+ b +:+ "}")] in
  generate_response B complete q engine t m w =
    match complete (chat_groq engine) msgs with
    | Ok r => (mk_world (env w) (history w ++ [user_turn q; assistant_turn r])
                 (llm_log w ++ [(chat_groq engine, msgs)]), Ok r)
    | Exc e => (mk_world (env w) (history w ++ [user_turn q])
                  (llm_log w ++ [(chat_groq engine, msgs)]), Exc e)
    end.
Proof.
  intros Hk Hh Ha Hb. cbv zeta.
  rewrite (generate_response_template _ _ _ _ _ _ Hk Hh (parse_doubled_braces a b Ha Hb))
    by constructor.
  rewrite format_doubled_braces by done. cbv zeta.
  destruct (complete _ _); by rewrite <- ?app_assoc.
Qed.

End Templates.

(** C20. A question can make the request as large as it likes: a question
    [{question:ds}] whose spec [ds] is a width (digits, not starting with [0])
    makes the human message the question padded with spaces up to that width, so a
    few characters become a request of up to [2^63 - 1] characters; a width beyond
    [PY_SSIZE_T_MAX] raises [ValueError] after the question was appended. *)
Theorem generate_response_width_field attr complete ds engine t m w :
  is_Some (env w !! groq_api_key_var) -> plain_history w -> width_digits ds = true ->
  let q := "{question:" +:+ ds +:+ "}" in
  let msgs := map to_message (prompt_turns (history w)) ++
              [mk_message HumanMessage
                 (q +:+ fill_string (Z.to_nat (decimal_value 0 ds - Z.of_nat (String.length q)))
                                    " "%char)] in
  generate_response (py_builtins attr) complete q engine t m w =
    if (decimal_value 0 ds <=? PY_SSIZE_T_MAX)%Z then
      match complete (chat_groq engine) msgs with
      | Ok r => (mk_world (env w) (history w ++ [user_turn q; assistant_turn r])
                   (llm_log w ++ [(chat_groq engine, msgs)]), Ok r)
      | Exc e => (mk_world (env w) (history w ++ [user_turn q])
                    (llm_log w ++ [(chat_groq engine, msgs)]), Exc e)
      end
    else (set_history (history w ++ [user_turn q]) w,
          Exc (ValueError "Too many decimal digits in format string")).
Proof.
  intros Hk Hh Hw. cbv zeta.
  rewrite (generate_response_template _ _ _ _ _ _ _ _ Hk Hh
             (parse_question_spec ds (width_digits_brace_free ds Hw))) by repeat constructor.
  rewrite (format_question_width _ _ _ ("{question:" +:+ ds +:+ "}") Hw)
    by (unfold chain_input; by rewrite lookup_singleton).
  rewrite str_format_width by done.
  cbv zeta. destruct (_ <=? _)%Z; [|done]. destruct (complete _ _); by rewrite <- ?app_assoc.
Qed.

(** ** A call on an empty history *)


Lemma template_of_system_turn :
  template_of_turn system_turn = Ok (mk_template SystemMessage "You are a helpful Assistant" []).
Proof. vm_compute. reflexivity. Qed.

Lemma prompt_pipeline_own B q msgs :
  prompt_pipeline B (prompt_turns ([] ++ [user_turn q])) (chain_input q) = Ok msgs ->
  question_prompt B q msgs.
Proof.
  unfold prompt_pipeline, prompt_turns, from_messages. cbn [res_map app].
  rewrite template_of_system_turn. unfold template_of_turn. cbn [message_type_of_role user_turn fst snd].
  destruct (parse q) as [cs|e]; simpl; [|done].
  unfold prompt_invoke. destruct (validate_input _ _); simpl; [|done].
  unfold format_messages. simpl. rewrite str_app_nil_r.
  destruct (format B (chain_input q) q) as [c|e] eqn:Ef; simpl; [|done].
  intros [=<-]. by exists c.
Qed.

(** A call on an empty history sends at most one request, and its prompt is the
    system message and the call's own question. *)
Lemma generate_response_own B complete q engine t m w w' r :
  history w = [] -> generate_response B complete q engine t m w = (w', r) ->
  llm_log w' = llm_log w \/
  exists cfg msgs, llm_log w' = llm_log w ++ [(cfg, msgs)] /\ question_prompt B q msgs.
Proof.
  intros Hh. destruct (chat_groq_init (env w) engine) as [cfg|e] eqn:Hc.
  - rewrite (generate_response_client B complete q engine t m w _ Hc). cbv zeta. rewrite Hh.
    destruct (prompt_pipeline _ _ _) as [msgs|e] eqn:Hp;
      [apply prompt_pipeline_own in Hp; destruct (complete _ msgs)|];
      intros [=<- <-]; simpl; [right; by exists cfg, msgs.. | by left].
  - rewrite (generate_response_no_client B complete q engine t m w _ Hc). intros [=<- <-].
    by left.
Qed.

Lemma generate_response_fresh B complete q engine t m w w' r :
  history w = [] -> generate_response B complete q engine t m w = (w', r) ->
  exists extra, llm_log w' = llm_log w ++ extra /\ Forall (fun c => fresh_prompt c.2) extra.
Proof.
  intros Hh Hg. destruct (generate_response_own _ _ _ _ _ _ _ _ _ Hh Hg)
    as [-> | (cfg & msgs & -> & c & _ & ->)].
  - exists []. by rewrite app_nil_r.
  - eexists. split; [reflexivity|]. repeat constructor. by exists c.
Qed.

(** ** The theorems at concrete inputs *)

Lemma generate_response_success_witness :
  generate_response example_builtins (echo_completion "4") "What is 2+2?" "gemma2-9b-it"
    (QArith_base.Qmake 7 10) 250 example_world =
  (mk_world (env example_world)
     (history example_world ++ [user_turn "What is 2+2?"; assistant_turn "4"])
     (llm_log example_world ++
        [(chat_groq "gemma2-9b-it", plain_prompt (history example_world) "What is 2+2?")]),
   Ok "4").
Proof.
  apply generate_response_success; [by eexists | intros x Hx; set_solver | done | done].
Defined.

Lemma generate_response_service_error_witness :
  generate_response example_builtins failing_completion "What is 2+2?" "gemma2-9b-it"
    (QArith_base.Qmake 7 10) 250 example_world =
  (mk_world (env example_world) (history example_world ++ [user_turn "What is 2+2?"])
     (llm_log example_world ++
        [(chat_groq "gemma2-9b-it", plain_prompt (history example_world) "What is 2+2?")]),
   Exc (GroqError "Service Unavailable")).
Proof.
  apply generate_response_service_error; [by eexists | intros x Hx; set_solver | done | done].
Defined.

Lemma generate_response_missing_key_witness :
  (∅ : gmap string string) !! groq_api_key_var = None /\
  exists msg, generate_response example_builtins (echo_completion "4") "What is 2+2?"
                "gemma2-9b-it" (QArith_base.Qmake 7 10) 250 (mk_world ∅ [] [])
              = (mk_world ∅ [] [], Exc (GroqError msg)).
Proof. split; [reflexivity | apply generate_response_missing_key; reflexivity]. Defined.

Lemma poisoned_session_witness :
  poisoned_turn (user_turn "What is {x}?") = true /\
  let '(w', out) := generate_seq example_builtins (echo_completion "4")
                      [("Hello", "gemma2-9b-it", QArith_base.Qmake 7 10, 250)]
                      (mk_world {[ "GROQ_API_KEY" := "gsk-test" ]} [user_turn "What is {x}?"] []) in
  history w' = [user_turn "What is {x}?"] ++
               map (fun r => user_turn (req_question r))
                 [("Hello", "gemma2-9b-it", QArith_base.Qmake 7 10, 250)] /\
  llm_log w' = [] /\ env w' = {[ "GROQ_API_KEY" := "gsk-test" ]} /\
  Forall (fun r => is_ok r = false) out.
Proof.
  split; [reflexivity|].
  refine (poisoned_session example_builtins (echo_completion "4")
            [("Hello", "gemma2-9b-it", QArith_base.Qmake 7 10, 250)]
            (mk_world {[ "GROQ_API_KEY" := "gsk-test" ]} [user_turn "What is {x}?"] [])
            (user_turn "What is {x}?") _ _ _); [by eexists | set_solver | reflexivity].
Defined.

Lemma generate_response_ignores_sliders_witness :
  generate_response example_builtins (echo_completion "4") "What is 2+2?" "llama-3.1-8b-instant"
    (QArith_base.Qmake 0 1) 100 example_world =
  (mk_world {[ "GROQ_API_KEY" := "gsk-test" ]} [user_turn "What is 2+2?"; assistant_turn "4"]
     [(chat_groq "llama-3.1-8b-instant", plain_prompt [] "What is 2+2?")], Ok "4") /\
  exists extra,
    [(chat_groq "llama-3.1-8b-instant", plain_prompt [] "What is 2+2?")]
      = llm_log example_world ++ extra /\
    Forall (fun c => cfg_model c.1 = "llama-3.1-8b-instant" /\
                     cfg_temperature c.1 = QArith_base.Qmake 7 10 /\
                     cfg_max_tokens c.1 = None) extra.
Proof.
  assert (H : generate_response example_builtins (echo_completion "4") "What is 2+2?"
                "llama-3.1-8b-instant" (QArith_base.Qmake 0 1) 100 example_world =
              (mk_world {[ "GROQ_API_KEY" := "gsk-test" ]}
                 [user_turn "What is 2+2?"; assistant_turn "4"]
                 [(chat_groq "llama-3.1-8b-instant", plain_prompt [] "What is 2+2?")], Ok "4"))
    by reflexivity.
  split; [exact H | exact (generate_response_ignores_sliders _ _ _ _ _ _ _ _ _ H)].
Defined.

Lemma generate_response_growth_witness :
  generate_response example_builtins failing_completion "What is 2+2?" "gemma2-9b-it"
    (QArith_base.Qmake 7 10) 250 example_world =
  (mk_world {[ "GROQ_API_KEY" := "gsk-test" ]} [user_turn "What is 2+2?"]
     [(chat_groq "gemma2-9b-it", plain_prompt [] "What is 2+2?")],
   Exc (GroqError "Service Unavailable")) /\
  env (mk_world {[ "GROQ_API_KEY" := "gsk-test" ]} [user_turn "What is 2+2?"]
         [(chat_groq "gemma2-9b-it", plain_prompt [] "What is 2+2?")]) = env example_world /\
  ([user_turn "What is 2+2?"] = history example_world ++ [user_turn "What is 2+2?"] \/
   ([user_turn "What is 2+2?"] = history example_world /\
    env example_world !! groq_api_key_var = None)).
Proof.
  assert (H : generate_response example_builtins failing_completion "What is 2+2?"
                "gemma2-9b-it" (QArith_base.Qmake 7 10) 250 example_world =
              (mk_world {[ "GROQ_API_KEY" := "gsk-test" ]} [user_turn "What is 2+2?"]
                 [(chat_groq "gemma2-9b-it", plain_prompt [] "What is 2+2?")],
               Exc (GroqError "Service Unavailable"))) by reflexivity.
  split; [exact H | exact (generate_response_growth _ _ _ _ _ _ _ _ _ H)].
Defined.

Lemma generate_response_doubled_braces_witness :
  brace_free "Use " = true /\ brace_free "x: 1" = true /\
  generate_response example_builtins (echo_completion "ok") ("Use " +:+ "{{" +:+ "x: 1" +:+ "}}")
    "gemma2-9b-it" (QArith_base.Qmake 7 10) 250 example_world =
  (mk_world (env example_world)
     [user_turn "Use {{x: 1}}"; assistant_turn "ok"]
     [(chat_groq "gemma2-9b-it", [mk_message SystemMessage "You are a helpful Assistant";
                                  mk_message HumanMessage "Use {x: 1}"])], Ok "ok").
Proof.
  split_and!; [reflexivity | reflexivity |].
  pose proof (generate_response_doubled_braces example_builtins (echo_completion "ok")
                "Use " "x: 1" "gemma2-9b-it" (QArith_base.Qmake 7 10) 250 example_world
                ltac:(by eexists) ltac:(intros x Hx; set_solver) eq_refl eq_refl) as H.
  cbv zeta in H. rewrite H. vm_compute. reflexivity.
Defined.

Lemma generate_response_width_field_witness :
  width_digits "40" = true /\ width_digits "9223372036854775808" = true /\
  generate_response (py_builtins (fun _ a _ => Exc (AttributeError a))) (echo_completion "ok")
    ("{question:" +:+ "40" +:+ "}") "gemma2-9b-it" (QArith_base.Qmake 7 10) 250 example_world =
  (mk_world (env example_world)
     [user_turn "{question:40}"; assistant_turn "ok"]
     [(chat_groq "gemma2-9b-it",
       [mk_message SystemMessage "You are a helpful Assistant";
        mk_message HumanMessage ("{question:40}" +:+ fill_string 27 " "%char)])], Ok "ok") /\
  generate_response (py_builtins (fun _ a _ => Exc (AttributeError a))) (echo_completion "ok")
    ("{question:" +:+ "9223372036854775808" +:+ "}") "gemma2-9b-it" (QArith_base.Qmake 7 10) 250
    example_world =
  (set_history [user_turn "{question:9223372036854775808}"] example_world,
   Exc (ValueError "Too many decimal digits in format string")).
Proof.
  split_and!; [reflexivity | reflexivity | |].
  - pose proof (generate_response_width_field (fun _ a _ => Exc (AttributeError a))
                  (echo_completion "ok") "40" "gemma2-9b-it" (QArith_base.Qmake 7 10) 250
                  example_world ltac:(by eexists) ltac:(intros x Hx; set_solver) eq_refl) as H.
    cbv zeta in H. rewrite H. vm_compute. reflexivity.
  - pose proof (generate_response_width_field (fun _ a _ => Exc (AttributeError a))
                  (echo_completion "ok") "9223372036854775808" "gemma2-9b-it"
                  (QArith_base.Qmake 7 10) 250
                  example_world ltac:(by eexists) ltac:(intros x Hx; set_solver) eq_refl) as H.
    cbv zeta in H. rewrite H. vm_compute. reflexivity.
Defined.
