(* ===== verification/Config.v ===== *)
(** * Configuration: src/app.py lines 6-17

    On every run the script reads two secrets, checks that neither is empty, and
    writes both into [os.environ] under the same lower-case names. Streamlit's
    [st.secrets] has already exported every root-level secret to [os.environ] on its
    first access, with an unconditional [os.environ[k] = str(v)]. Secrets are taken
    to be TOML strings; a missing secrets file is not modelled. *)

From S2P Require Import Prelude History Chain Generate.

Local Open Scope py_scope.

(** The secret names of lines 7-8. *)
Definition langchain_api_key_name : string := "langchain_api_key".
Definition groq_api_key_name : string := "groq_api_key".

(** [st.secrets[k]]: a missing key raises [KeyError]. *)
Definition secrets_get (secrets : gmap string string) (k : string) : res string :=
  match secrets !! k with
  | Some v => Ok v
  | None => Exc (KeyError ("st.secrets has no key " +:+ k))
  end.

(** Loading [st.secrets]: every root-level secret is copied to [os.environ]. *)
Definition secrets_export (secrets : gmap string string) (w : World) : World :=
  mk_world (secrets ∪ env w) (history w) (llm_log w).

(** [os.environ[k] = v]. *)
Definition environ_set (k v : string) : py World unit :=
  py_modify (fun w => mk_world (<[k := v]> (env w)) (history w) (llm_log w)).

(** Lines 6-17. *)
Definition startup (secrets : gmap string string) : py World unit :=
  py_modify (secrets_export secrets) ;;;
  let* langchain_api_key := py_lift (secrets_get secrets langchain_api_key_name) in
  let* groq_api_key := py_lift (secrets_get secrets groq_api_key_name) in
  if negb (str_truthy langchain_api_key) || negb (str_truthy groq_api_key) then
    py_raise (ValueError "API keys are not set. Please check your Streamlit Cloud secrets.")
  else
    environ_set langchain_api_key_name langchain_api_key ;;;
    environ_set groq_api_key_name groq_api_key.

(** Sample secrets: the two keys the script documents, and nothing else. *)
Definition example_secrets : gmap string string :=
  {[ langchain_api_key_name := "lsv2-test"; groq_api_key_name := "gsk-test" ]}.

(** ** Theorems *)

Lemma secrets_export_lookup secrets w k v :
  secrets !! k = Some v -> env (secrets_export secrets w) !! k = Some v.
Proof. intros H. simpl. by apply lookup_union_Some_l. Qed.

(** Every branch of lines 6-17. A missing secret raises [KeyError] (the
    LangChain key is read first). An empty one raises [ValueError]. Otherwise the run
    goes on. In every case the environment is the secrets exported over the old one:
    the writes of lines 16-17 store values that are already there. *)
Theorem startup_outcome secrets w :
  startup secrets w =
    (secrets_export secrets w,
     match secrets !! langchain_api_key_name, secrets !! groq_api_key_name with
     | None, _ => Exc (KeyError ("st.secrets has no key " +:+ langchain_api_key_name))
     | Some _, None => Exc (KeyError ("st.secrets has no key " +:+ groq_api_key_name))
     | Some l, Some g =>
         if String.eqb l "" || String.eqb g "" then
           Exc (ValueError "API keys are not set. Please check your Streamlit Cloud secrets.")
         else Ok tt
     end).
Proof.
  unfold startup, secrets_get. py_simp.
  destruct (secrets !! langchain_api_key_name) as [l|] eqn:El; [|done].
  destruct (secrets !! groq_api_key_name) as [g|] eqn:Eg; [|done]. simpl.
  unfold str_truthy. rewrite !negb_involutive.
  destruct (String.eqb l "" || String.eqb g "")%bool; [done|].
  pose proof (secrets_export_lookup _ w _ _ El) as Hl.
  pose proof (secrets_export_lookup _ w _ _ Eg) as Hg.
  unfold environ_set, py_modify, secrets_export in *; simpl in *.
  by rewrite (insert_id _ _ _ Hl), (insert_id _ _ _ Hg).
Qed.

(** C9. After a successful startup, [ChatGroq] finds its key exactly when
    [GROQ_API_KEY] is itself a secret or was already in the process environment.
    The two keys that the script reads, checks and writes are never the one
    [ChatGroq] reads. *)
Theorem startup_groq_key secrets w w' :
  startup secrets w = (w', Ok tt) ->
  is_Some (env w' !! groq_api_key_var) <->
  is_Some (secrets !! groq_api_key_var) \/ is_Some (env w !! groq_api_key_var).
Proof.
  rewrite startup_outcome. intros H. inversion H; subst; clear H. simpl.
  rewrite lookup_union. unfold is_Some.
  destruct (secrets !! groq_api_key_var), (env w !! groq_api_key_var); simpl;
    (split; [intros [x Hx]; simplify_eq; eauto | intros [[x Hx]|[x Hx]]; simplify_eq; eauto]).
Qed.

Lemma startup_groq_key_witness :
  startup example_secrets (mk_world ∅ [] []) =
    (secrets_export example_secrets (mk_world ∅ [] []), Ok tt) /\
  (is_Some (env (secrets_export example_secrets (mk_world ∅ [] [])) !! groq_api_key_var) <->
   is_Some (example_secrets !! groq_api_key_var) \/
   is_Some (env (mk_world ∅ [] []) !! groq_api_key_var)).
Proof.
  assert (H : startup example_secrets (mk_world ∅ [] []) =
                (secrets_export example_secrets (mk_world ∅ [] []), Ok tt)) by reflexivity.
  split; [exact H | exact (startup_groq_key _ _ _ H)].
Defined.
