(* ===== verification/App.v ===== *)
(** * The Streamlit page: src/app.py as a whole, run after run

    Streamlit executes the script from its first line on every interaction (a
    rerun), in a fresh [__main__] module. So line 20,
    [conversation_history = []], runs again each time. Only the process state
    survives between runs: [os.environ] and the calls already made to the service.
    [run_script] is one execution: configuration, the reset of the history, the
    elements the page shows, and the branch of lines 70-75 on the widget values
    [UiInput]. [run_session] chains runs as Streamlit does. *)

From Stdlib Require QArith.
From S2P Require Import Prelude PyFormat History Chain Generate Config.

Local Open Scope py_scope.

(** The elements a run puts on the page, in order. *)
Inductive element :=
| Title (text : string)
| Write (text : string)
| SelectBox (label : string) (options : list string)
| Slider (label : string) (lo hi default : QArith_base.Q)
| TextInput (label : string)
| SubmitButton (label : string)
| Form (key : string) (clear_on_submit : bool) (children : list element).

(** The values the widgets return in a run: the selected model, the two sliders, the
    text field and whether this run was triggered by the submit button. *)
Record UiInput := mk_ui {
  ui_engine : string;
  ui_temperature : QArith_base.Q;
  ui_max_token : nat;
  ui_text : string;
  ui_submit : bool
}.

(** The state of one run: the process state and the page being drawn. *)
Record Run := mk_run { run_world : World; page : list element }.

Definition lift_world {A} (c : py World A) : py Run A :=
  fun r => let '(w', x) := c (run_world r) in (mk_run w' (page r), x).

(** [st.title], [st.write] and the widget calls: an element added to the page. *)
Definition emit (e : element) : py Run unit :=
  py_modify (fun r => mk_run (run_world r) (page r ++ [e])).

(** The model list of lines 46-51, kept literally (including the last entry's
    spelling, "lama3-..."). *)
Definition models : list string :=
  ["gemma2-9b-it"; "llama3-groq-70b-8192-tool-use-preview"; "llama-3.1-8b-instant";
   "lama3-groq-8b-8192-tool-use-preview"].

Definition q_of_nat (n : nat) : QArith_base.Q := QArith_base.inject_Z (Z.of_nat n).


(** Line 59 or 61 for one turn of the history. *)
Definition history_line (t : turn) : element :=
  if String.eqb t.1 role_user then Write ("**You:** " +:+ t.2)
  else Write ("**Assistant:** " +:+ t.2).

(** Lines 64-67. *)
Definition input_form : element :=
  Form "input_form" true
    [Write "Go ahead and ask your question"; TextInput "You:"; SubmitButton "Submit"].

(** The page a run draws before the branch of lines 70-75. *)
Definition page_prefix : list element :=
  [Title "QnA Chatbot with Memory"; SelectBox "Select model" models;
   Slider "Temperature" (QArith_base.Qmake 0 1) (QArith_base.Qmake 1 1) (QArith_base.Qmake 7 10);
   Slider "Max Tokens" (q_of_nat 100) (q_of_nat 500) (q_of_nat 250);
   Write "### Conversation History"; input_form].

(** A submission of [q] with the default sidebar values. *)
Definition example_ui (q : string) : UiInput :=
  mk_ui "gemma2-9b-it" (QArith_base.Qmake 7 10) 250 q true.

Section Script.
Context (B : Builtins) (complete : completion) (secrets : gmap string string).

(** One execution of the script. *)
Definition run_script (ui : UiInput) : py Run unit :=
  lift_world (startup secrets) ;;;
  lift_world (py_modify (set_history conversation_history_init)) ;;;
  emit (Title "QnA Chatbot with Memory") ;;;
  emit (SelectBox "Select model" models) ;;;
  emit (Slider "Temperature" (QArith_base.Qmake 0 1) (QArith_base.Qmake 1 1)
               (QArith_base.Qmake 7 10)) ;;;
  emit (Slider "Max Tokens" (q_of_nat 100) (q_of_nat 500) (q_of_nat 250)) ;;;
  emit (Write "### Conversation History") ;;;
  let* r := py_get in
  foldr (fun t k => emit (history_line t) ;;; k) (py_ret tt)
        (ss_snapshot (history (run_world r))) ;;;
  emit input_form ;;;
  if ui_submit ui && str_truthy (ui_text ui) then
    let* response := lift_world (generate_response B complete (ui_text ui) (ui_engine ui)
                                   (ui_temperature ui) (ui_max_token ui)) in
    emit (Write ("**Assistant:** " +:+ response))
  else if ui_submit ui then emit (Write "Please provide a question.")
  else py_ret tt.

(** Streamlit's reruns: each run starts with an empty page on the process state the
    previous run left. *)
Fixpoint run_session (uis : list UiInput) (w : World)
    : World * list (list element * res unit) :=
  match uis with
  | [] => (w, [])
  | ui :: rest =>
      let '(r, x) := run_script ui (mk_run w []) in
      let '(w', outs) := run_session rest (run_world r) in
      (w', (page r, x) :: outs)
  end.

End Script.

(** ** One run *)


Lemma lift_world_bind_ok {A B'} (c : py World A) (k : A -> py Run B') w w' p a :
  c w = (w', Ok a) -> py_bind (lift_world c) k (mk_run w p) = k a (mk_run w' p).
Proof. intros H. unfold py_bind, lift_world. simpl. by rewrite H. Qed.

Lemma lift_world_bind_exc {A B'} (c : py World A) (k : A -> py Run B') w w' p e :
  c w = (w', Exc e) -> py_bind (lift_world c) k (mk_run w p) = (mk_run w' p, Exc e).
Proof. intros H. unfold py_bind, lift_world. simpl. by rewrite H. Qed.

Section OneRun.
Context (B : Builtins) (complete : completion) (secrets : gmap string string).

Lemma run_script_startup_error ui w w1 e :
  startup secrets w = (w1, Exc e) ->
  run_script B complete secrets ui (mk_run w []) = (mk_run w1 [], Exc e).
Proof. intros H. unfold run_script. by rewrite (lift_world_bind_exc _ _ _ _ _ _ H). Qed.

Lemma run_script_started ui w w1 :
  startup secrets w = (w1, Ok tt) ->
  run_script B complete secrets ui (mk_run w []) =
    let w2 := set_history [] w1 in
    if ui_submit ui && str_truthy (ui_text ui) then
      match generate_response B complete (ui_text ui) (ui_engine ui) (ui_temperature ui)
              (ui_max_token ui) w2 with
      | (w3, Ok a) => (mk_run w3 (page_prefix ++ [Write ("**Assistant:** " +:+ a)]), Ok tt)
      | (w3, Exc e) => (mk_run w3 page_prefix, Exc e)
      end
    else (mk_run w2 (page_prefix ++ (if ui_submit ui then [Write "Please provide a question."]
                                     else [])), Ok tt).
Proof.
  intros H. unfold run_script. rewrite (lift_world_bind_ok _ _ _ _ _ _ H).
  unfold emit, lift_world, py_bind, py_modify, py_get, py_ret. cbn -[generate_response].
  destruct (ui_submit ui && str_truthy (ui_text ui)).
  - destruct (generate_response _ _ _ _ _ _ _) as [w3 [a|e]]; reflexivity.
  - by destruct (ui_submit ui).
Qed.

(** A run whose guard of line 70 fails never reaches the service. *)
Lemma run_script_no_request ui w :
  ui_submit ui && str_truthy (ui_text ui) = false ->
  llm_log (run_world (run_script B complete secrets ui (mk_run w [])).1) = llm_log w.
Proof.
  intros Hg. destruct (startup secrets w) as [w1 [[]|e]] eqn:Hs; pose proof Hs as Ho;
    rewrite startup_outcome in Ho; inversion Ho; subst w1.
  - rewrite (run_script_started _ _ _ Hs). cbv zeta. by rewrite Hg.
  - by rewrite (run_script_startup_error _ _ _ _ Hs).
Qed.

End OneRun.

(** ** Theorems *)

Section Theorems.
Context (B : Builtins) (complete : completion) (secrets : gmap string string).

Lemma run_script_log ui w :
  let '(r, x) := run_script B complete secrets ui (mk_run w []) in
  exists extra, llm_log (run_world r) = llm_log w ++ extra /\
                Forall (fun c => fresh_prompt c.2) extra.
Proof.
  destruct (startup secrets w) as [w1 [[]|e]] eqn:Hs; pose proof Hs as Ho;
    rewrite startup_outcome in Ho; inversion Ho; subst w1.
  - rewrite (run_script_started _ _ _ _ _ _ Hs). cbv zeta.
    destruct (_ && _); [|exists []; by rewrite app_nil_r].
    destruct (generate_response _ _ _ _ _ _ _) as [w3 r3] eqn:Hg.
    apply generate_response_fresh in Hg as (extra & Hl & Hf); [|reflexivity].
    destruct r3; by exists extra.
  - rewrite (run_script_startup_error _ _ _ _ _ _ _ Hs). exists []. by rewrite app_nil_r.
Qed.

(** One run sends at most one request: the prompt of its own question, when the
    button was pressed with a non-empty question. *)
Lemma run_script_own ui w :
  let w' := run_world (run_script B complete secrets ui (mk_run w [])).1 in
  llm_log w' = llm_log w \/
  (ui_submit ui = true /\ ui_text ui <> "" /\
   exists cfg msgs, llm_log w' = llm_log w ++ [(cfg, msgs)] /\
                    question_prompt B (ui_text ui) msgs).
Proof.
  cbv zeta. destruct (startup secrets w) as [w1 [[]|e]] eqn:Hs; pose proof Hs as Ho;
    rewrite startup_outcome in Ho; inversion Ho; subst w1.
  - rewrite (run_script_started _ _ _ _ _ _ Hs). cbv zeta.
    destruct (ui_submit ui && str_truthy (ui_text ui)) eqn:Hg; [|by left].
    apply andb_prop in Hg as [Hsub Ht]. apply str_truthy_false_neg in Ht.
    destruct (generate_response _ _ _ _ _ _ _) as [w3 r3] eqn:Hgen.
    apply generate_response_own in Hgen; [|reflexivity].
    destruct Hgen as [Hl | (cfg & msgs & Hl & Hq)]; destruct r3; simpl.
    1-2: left; rewrite Hl; reflexivity.
    all: right; split_and!; [done | done | exists cfg, msgs; by rewrite Hl].
  - rewrite (run_script_startup_error _ _ _ _ _ _ _ Hs). by left.
Qed.

(** C1. Streamlit reruns the whole script and line 20 resets
    [conversation_history] each time, so the chatbot has no memory. Over any
    sequence of interactions, every prompt the model receives is the system message
    and the current question, and nothing else. For a second question the spec
    expects four messages: the system turn, the first exchange, and the new
    question. *)
Theorem run_session_forgets uis w :
  let '(w', _) := run_session B complete secrets uis w in
  exists extra, llm_log w' = llm_log w ++ extra /\ Forall (fun c => fresh_prompt c.2) extra.
Proof.
  revert w. induction uis as [|ui uis IH]; intros w; simpl; [exists []; by rewrite app_nil_r|].
  pose proof (run_script_log ui w) as Hr.
  destruct (run_script _ _ _ ui _) as [r x]. destruct Hr as (e1 & H1 & F1).
  specialize (IH (run_world r)). destruct (run_session _ _ _ uis _) as [w' outs].
  destruct IH as (e2 & H2 & F2). exists (e1 ++ e2).
  rewrite H2, H1, app_assoc. split; [done|]. by apply Forall_app.
Qed.

(** C5. The section "Conversation History" is always empty: in every run the form
    follows its header directly. After the form comes at most the reply or the
    message for an empty question. *)
Theorem run_script_page ui w :
  let '(r, _) := run_script B complete secrets ui (mk_run w []) in
  page r = [] \/ page r = page_prefix \/
  page r = page_prefix ++ [Write "Please provide a question."] \/
  exists a, page r = page_prefix ++ [Write ("**Assistant:** " +:+ a)].
Proof.
  destruct (startup secrets w) as [w1 [[]|e]] eqn:Hs.
  - rewrite (run_script_started _ _ _ _ _ _ Hs). cbv zeta.
    destruct (_ && _).
    + destruct (generate_response _ _ _ _ _ _ _) as [w3 [a|e]]; simpl; eauto 10.
    + destruct (ui_submit ui); simpl; rewrite ?app_nil_r; eauto.
  - rewrite (run_script_startup_error _ _ _ _ _ _ _ Hs). by left.
Qed.

(** C6. Submitting an empty question never calls the model and never appends to
    the history. A started run shows "Please provide a question." exactly when the
    button was pressed. *)
Theorem run_script_empty_input ui w :
  ui_text ui = "" ->
  let '(r, x) := run_script B complete secrets ui (mk_run w []) in
  llm_log (run_world r) = llm_log w /\
  (x = Ok tt -> history (run_world r) = [] /\
     page r = page_prefix ++ (if ui_submit ui then [Write "Please provide a question."] else [])).
Proof.
  intros Ht. destruct (startup secrets w) as [w1 [[]|e]] eqn:Hs; pose proof Hs as Ho;
    rewrite startup_outcome in Ho; inversion Ho; subst w1.
  - rewrite (run_script_started _ _ _ _ _ _ Hs). cbv zeta. rewrite Ht.
    unfold str_truthy. simpl. rewrite andb_false_r. done.
  - rewrite (run_script_startup_error _ _ _ _ _ _ _ Hs). split; [done|]. discriminate.
Qed.

(** C7. A missing or empty secret is fatal to every run: the run raises before
    anything is drawn, and neither the model nor the history is touched. *)
Theorem run_script_config_error ui w :
  secrets !! langchain_api_key_name = None \/ secrets !! groq_api_key_name = None \/
  secrets !! langchain_api_key_name = Some "" \/ secrets !! groq_api_key_name = Some "" ->
  let '(r, x) := run_script B complete secrets ui (mk_run w []) in
  page r = [] /\ is_ok x = false /\ llm_log (run_world r) = llm_log w /\
  history (run_world r) = history w.
Proof.
  intros Hbad.
  assert (exists e, startup secrets w = (secrets_export secrets w, Exc e)) as [e Hs].
  { rewrite startup_outcome.
    destruct (secrets !! langchain_api_key_name) as [l|] eqn:El; [|by eauto].
    destruct (secrets !! groq_api_key_name) as [g|] eqn:Eg; [|by eauto].
    destruct Hbad as [?|[?|[?|?]]]; simplify_eq; rewrite ?orb_true_r; simpl; eauto. }
  by rewrite (run_script_startup_error _ _ _ _ _ _ _ Hs).
Qed.

(** C8. With the secrets the script documents ([langchain_api_key] and
    [groq_api_key], both set) and no [GROQ_API_KEY] elsewhere, every non-empty
    submission raises [GroqError] at line 24, before anything reaches the model. *)
Theorem run_script_groq_key_unset ui w l g :
  secrets !! langchain_api_key_name = Some l -> secrets !! groq_api_key_name = Some g ->
  l <> "" -> g <> "" ->
  secrets !! groq_api_key_var = None -> env w !! groq_api_key_var = None ->
  ui_submit ui = true -> ui_text ui <> "" ->
  exists msg, run_script B complete secrets ui (mk_run w []) =
    (mk_run (set_history [] (secrets_export secrets w)) page_prefix, Exc (GroqError msg)).
Proof.
  intros El Eg Hl Hg Hs He Hsub Ht.
  assert (startup secrets w = (secrets_export secrets w, Ok tt)) as Hst.
  { rewrite startup_outcome, El, Eg.
    by destruct (String.eqb_spec l ""), (String.eqb_spec g ""). }
  rewrite (run_script_started _ _ _ _ _ _ Hst). cbv zeta.
  rewrite Hsub. unfold str_truthy. destruct (String.eqb_spec (ui_text ui) ""); [done|].
  simpl. set (w2 := set_history [] (secrets_export secrets w)).
  assert (Hn : env w2 !! groq_api_key_var = None) by (simpl; by rewrite lookup_union, Hs, He).
  destruct (chat_groq_init (env w2) (ui_engine ui)) as [c|e] eqn:Hc;
    unfold chat_groq_init in Hc; rewrite Hn in Hc; [done|]. injection Hc as <-.
  rewrite (generate_response_no_client B complete _ _ _ _ w2 _) by
    (unfold chat_groq_init; by rewrite Hn).
  by eexists.
Qed.

End Theorems.

(** ** The theorems at concrete inputs *)

(** Spec section 8 expects 1 + 2 + 1 = 4 messages in the prompt of a second
    question. The script sends 2. *)
Example second_submission_prompt :
  let '(w', _) := run_session example_builtins (echo_completion "4") example_secrets
                    [example_ui "What is 2+2?"; example_ui "And 3+3?"] example_world in
  map snd (llm_log w') =
    [[mk_message SystemMessage "You are a helpful Assistant";
      mk_message HumanMessage "What is 2+2?"];
     [mk_message SystemMessage "You are a helpful Assistant";
      mk_message HumanMessage "And 3+3?"]].
Proof. vm_compute. reflexivity. Qed.

Lemma run_script_empty_input_witness :
  ui_text (example_ui "") = "" /\
  let '(r, x) := run_script example_builtins (echo_completion "4") example_secrets
                   (example_ui "") (mk_run example_world []) in
  llm_log (run_world r) = llm_log example_world /\
  (x = Ok tt -> history (run_world r) = [] /\
     page r = page_prefix ++ (if ui_submit (example_ui "")
                              then [Write "Please provide a question."] else [])).
Proof. split; [reflexivity | apply run_script_empty_input; reflexivity]. Defined.

Lemma run_script_config_error_witness :
  let secrets : gmap string string :=
    {[ langchain_api_key_name := ""; groq_api_key_name := "gsk-test" ]} in
  (secrets !! langchain_api_key_name = None \/ secrets !! groq_api_key_name = None \/
   secrets !! langchain_api_key_name = Some "" \/ secrets !! groq_api_key_name = Some "") /\
  let '(r, x) := run_script example_builtins (echo_completion "4") secrets
                   (example_ui "Hi") (mk_run example_world []) in
  page r = [] /\ is_ok x = false /\ llm_log (run_world r) = llm_log example_world /\
  history (run_world r) = history example_world.
Proof.
  intros secrets. assert (H : secrets !! langchain_api_key_name = None \/
    secrets !! groq_api_key_name = None \/ secrets !! langchain_api_key_name = Some "" \/
    secrets !! groq_api_key_name = Some "") by (right; right; left; reflexivity).
  split; [exact H | exact (run_script_config_error example_builtins (echo_completion "4")
                             secrets (example_ui "Hi") example_world H)].
Defined.

Lemma run_script_groq_key_unset_witness :
  exists msg, run_script example_builtins (echo_completion "4") example_secrets
                (example_ui "Hi") (mk_run (mk_world ∅ [] []) []) =
    (mk_run (set_history [] (secrets_export example_secrets (mk_world ∅ [] []))) page_prefix,
     Exc (GroqError msg)).
Proof.
  apply (run_script_groq_key_unset _ _ _ _ _ "lsv2-test" "gsk-test");
    (reflexivity || discriminate).
Defined.
