(* ===== verification/Widgets.v ===== *)
(** * The widgets of the page across reruns

    What a run of src/app.py reads from its widgets (lines 46-53 and 64-67)
    depends on what the user did in the browser since the last run. Streamlit
    reruns the script when a sidebar widget changes or the form is submitted;
    typing into the form's text field does not rerun it. A submit button returns
    [True] only in the run its press triggers. With [clear_on_submit=True] (line 64)
    the form's text field goes back to its default [""] once submitted.

    [WidgetState] is what the browser and Streamlit's widget store hold between
    runs, [widget_step] is one user action (with the run it triggers, if any) and
    [reachable] the states a session can reach. [app_session] feeds the runs the
    actions trigger to [App.run_session]. *)

From Stdlib Require QArith.
From S2P Require Import Prelude PyFormat History Chain Generate Config App.

Local Open Scope py_scope.

(** One user action: pick the option at an index of the select box, move a slider
    (the temperature in hundredths, the slider's 0.01 step), type into the form's
    text field, or press the form's submit button. *)
Inductive event :=
| SelectModel (index : nat)
| SetTemperature (hundredths : nat)
| SetMaxTokens (n : nat)
| TypeText (s : string)
| PressSubmit.

(** The widget values between runs: the select box's index, the two sliders, the
    text typed in the browser and not yet submitted ([ws_draft]), and the value
    the text field reports to the script ([ws_committed]). *)
Record WidgetState := mk_widgets {
  ws_engine : nat;
  ws_temperature : nat;
  ws_max_token : nat;
  ws_draft : string;
  ws_committed : string
}.

(** The defaults of lines 46, 52, 53 and 66: the first option, [value=0.7],
    [value=250] and the empty text. *)
Definition widgets_init : WidgetState := mk_widgets 0 70 250 "" "".

Definition temperature_of (hundredths : nat) : QArith_base.Q :=
  QArith_base.Qmake (Z.of_nat hundredths) 100.

(** What one run reads: [engine], [temperature], [max_token], [user_input] and
    [submit_button]. *)
Definition ui_of (ws : WidgetState) (text : string) (submit : bool) : UiInput :=
  mk_ui (nth (ws_engine ws) models "") (temperature_of (ws_temperature ws))
        (ws_max_token ws) text submit.

(** The values the browser lets the user choose: an option of the list and the
    ranges [min_value]..[max_value] of the two sliders. *)
Definition event_valid (e : event) : bool :=
  match e with
  | SelectModel i => Nat.ltb i (length models)
  | SetTemperature k => Nat.leb k 100
  | SetMaxTokens n => Nat.leb 100 n && Nat.leb n 500
  | TypeText _ | PressSubmit => true
  end.

(** The [clear_on_submit] argument of a form. *)
Definition clear_on_submit_of (e : element) : bool :=
  match e with Form _ clear _ => clear | _ => false end.

Section Step.
Context (clear : bool).

(** One action: the new widget state and the run it triggers. A sidebar change
    reruns the script with the button released and the text field's committed
    value; typing only changes the browser's draft; a press submits the draft and,
    with [clear], resets the field. *)
Definition widget_step (ws : WidgetState) (e : event) : WidgetState * option UiInput :=
  match e with
  | SelectModel i =>
      let ws' := mk_widgets i (ws_temperature ws) (ws_max_token ws) (ws_draft ws)
                            (ws_committed ws) in
      (ws', Some (ui_of ws' (ws_committed ws') false))
  | SetTemperature k =>
      let ws' := mk_widgets (ws_engine ws) k (ws_max_token ws) (ws_draft ws)
                            (ws_committed ws) in
      (ws', Some (ui_of ws' (ws_committed ws') false))
  | SetMaxTokens n =>
      let ws' := mk_widgets (ws_engine ws) (ws_temperature ws) n (ws_draft ws)
                            (ws_committed ws) in
      (ws', Some (ui_of ws' (ws_committed ws') false))
  | TypeText s =>
      (mk_widgets (ws_engine ws) (ws_temperature ws) (ws_max_token ws) s (ws_committed ws),
       None)
  | PressSubmit =>
      let ws' := if clear
                 then mk_widgets (ws_engine ws) (ws_temperature ws) (ws_max_token ws) "" ""
                 else mk_widgets (ws_engine ws) (ws_temperature ws) (ws_max_token ws)
                                 (ws_draft ws) (ws_draft ws) in
      (ws', Some (ui_of ws (ws_draft ws) true))
  end.

(** A sequence of actions: the final state and the runs, in order. *)
Fixpoint widget_run (ws : WidgetState) (es : list event) : WidgetState * list UiInput :=
  match es with
  | [] => (ws, [])
  | e :: es' =>
      let '(ws1, run) := widget_step ws e in
      let '(ws2, runs) := widget_run ws1 es' in
      (ws2, option_list run ++ runs)
  end.

(** The states a session reaches by valid actions from the defaults. *)
Inductive reachable : WidgetState -> Prop :=
| reach_init : reachable widgets_init
| reach_step ws e : reachable ws -> event_valid e = true -> reachable (widget_step ws e).1.

End Step.

(** The form of lines 64-67 clears on submit. *)
Definition form_clears : bool := clear_on_submit_of input_form.

(** A session of the page: the actions of one user, and the script run for each
    rerun they trigger. *)
Definition app_session (B : Builtins) (complete : completion) (secrets : gmap string string)
    (es : list event) (w : World) : World * list (list element * res unit) :=
  run_session B complete secrets (widget_run form_clears widgets_init es).2 w.

(** The invariant of the widget state. *)
Definition ws_valid (clear : bool) (ws : WidgetState) : Prop :=
  ws_engine ws < length models /\ ws_temperature ws <= 100 /\
  100 <= ws_max_token ws <= 500 /\ (clear = true -> ws_committed ws = "").

(** The ranges of a GenerationRequest (spec section 3) for one run's inputs. *)
Definition ui_in_range (ui : UiInput) : Prop :=
  ui_engine ui ∈ models /\
  QArith_base.Qle (QArith_base.Qmake 0 1) (ui_temperature ui) /\
  QArith_base.Qle (ui_temperature ui) (QArith_base.Qmake 1 1) /\
  100 <= ui_max_token ui <= 500.

(** ** The widget invariant *)

Lemma widget_step_valid clear ws e :
  ws_valid clear ws -> event_valid e = true -> ws_valid clear (widget_step clear ws e).1.
Proof.
  unfold ws_valid. intros (He & Ht & Hm & Hc) Hv.
  destruct e; cbn [widget_step fst event_valid ws_engine ws_temperature ws_max_token ws_committed] in *;
    repeat match goal with
    | H : Nat.ltb _ _ = true |- _ => apply Nat.ltb_lt in H
    | H : Nat.leb _ _ = true |- _ => apply Nat.leb_le in H
    | H : _ && _ = true |- _ => apply andb_prop in H as [? ?]
    end; try (split_and!; auto; lia).
  destruct clear; simpl; split_and!; (lia || done || discriminate).
Qed.

Lemma ui_of_in_range clear ws text submit :
  ws_valid clear ws -> ui_in_range (ui_of ws text submit).
Proof.
  unfold ws_valid, ui_in_range, ui_of. intros (He & Ht & Hm & _). cbn [ui_engine ui_temperature ui_max_token].
  split_and!; [apply list_elem_of_In, nth_In; lia | unfold temperature_of, QArith_base.Qle; simpl; lia..
              | lia | lia].
Qed.

Lemma widget_step_run_in_range clear ws e ui :
  ws_valid clear ws -> event_valid e = true -> (widget_step clear ws e).2 = Some ui ->
  ui_in_range ui.
Proof.
  intros Hws Hv Hr. pose proof (widget_step_valid clear ws e Hws Hv) as Hws'.
  destruct e; simpl in *; simplify_eq; eapply ui_of_in_range; eauto.
Qed.

Lemma widget_run_in_range clear ws es :
  ws_valid clear ws -> Forall (fun e => event_valid e = true) es ->
  Forall ui_in_range (widget_run clear ws es).2 /\ ws_valid clear (widget_run clear ws es).1.
Proof.
  revert ws. induction es as [|e es IH]; intros ws Hws Hes; simpl; [done|].
  apply Forall_cons in Hes as [He Hes].
  pose proof (widget_step_valid clear ws e Hws He) as Hws1.
  pose proof (widget_step_run_in_range clear ws e) as Hr.
  destruct (widget_step clear ws e) as [ws1 run]. simpl in *.
  specialize (IH ws1 Hws1 Hes). destruct (widget_run clear ws1 es) as [ws2 runs].
  destruct IH as [IH1 IH2]. split; [|done].
  apply Forall_app. split; [|done]. destruct run as [ui|]; simpl; [|done].
  constructor; [by apply (Hr ui) | done].
Qed.

Lemma widgets_init_valid clear : ws_valid clear widgets_init.
Proof. unfold ws_valid. simpl. split_and!; auto; lia. Qed.

(** C13. Invariant of the widget state: in every state a session reaches, the
    select box holds an index of the model list, the sliders hold values of their
    ranges, and with [clear_on_submit] the text field reports the empty text to
    every run not triggered by a submission. *)
Theorem widgets_invariant clear ws : reachable clear ws -> ws_valid clear ws.
Proof.
  induction 1 as [|ws e _ IH He]; [apply widgets_init_valid | by apply widget_step_valid].
Qed.

(** C14. Every run a session triggers reads a GenerationRequest of the ranges of
    spec section 3: a model of the list of lines 46-51, a temperature in [0, 1] and
    a token limit in [100, 500], whatever the user does in the browser. *)
Theorem widget_inputs_in_range clear es :
  Forall (fun e => event_valid e = true) es ->
  Forall ui_in_range (widget_run clear widgets_init es).2.
Proof. intros Hes. apply widget_run_in_range; [apply widgets_init_valid | done]. Qed.

(** ** Which runs reach the service *)

Lemma widget_run_runs_cons clear ws e es :
  (widget_run clear ws (e :: es)).2 =
    option_list (widget_step clear ws e).2 ++ (widget_run clear (widget_step clear ws e).1 es).2.
Proof.
  simpl. destruct (widget_step clear ws e) as [ws1 run]. simpl.
  by destruct (widget_run clear ws1 es).
Qed.

Lemma widget_run_no_submit clear ws es :
  Forall (fun e => e <> PressSubmit) es ->
  Forall (fun ui => ui_submit ui = false) (widget_run clear ws es).2.
Proof.
  revert ws. induction es as [|e es IH]; intros ws Hes; [done|].
  apply Forall_cons in Hes as [He Hes]. rewrite widget_run_runs_cons.
  apply Forall_app. split; [|by apply IH].
  destruct e; [..|done]; simpl; by repeat constructor.
Qed.

Section Session.
Context (B : Builtins) (complete : completion) (secrets : gmap string string).

Lemma run_session_no_request uis w :
  Forall (fun ui => ui_submit ui = false) uis ->
  llm_log (run_session B complete secrets uis w).1 = llm_log w.
Proof.
  revert w. induction uis as [|ui uis IH]; intros w Hs; simpl; [done|].
  apply Forall_cons in Hs as [Hu Hs].
  pose proof (run_script_no_request B complete secrets ui w) as Hr.
  rewrite Hu in Hr. specialize (Hr eq_refl).
  destruct (run_script B complete secrets ui (mk_run w [])) as [r x]. simpl in Hr.
  specialize (IH (run_world r) Hs). destruct (run_session _ _ _ uis _) as [w' outs].
  simpl in *. congruence.
Qed.

(** C15. Because the form clears on submit (line 64), pressing Submit a second
    time sends nothing: whatever the state, the second press triggers a run whose
    text is empty, and that run leaves the log of service calls as the first run
    left it. *)
Theorem resubmit_sends_once ws w :
  exists ui1 ui2, (widget_run form_clears ws [PressSubmit; PressSubmit]).2 = [ui1; ui2] /\
    ui_text ui1 = ws_draft ws /\ ui_submit ui2 = true /\ ui_text ui2 = "" /\
    let w1 := run_world (run_script B complete secrets ui1 (mk_run w [])).1 in
    llm_log (run_world (run_script B complete secrets ui2 (mk_run w1 [])).1) = llm_log w1.
Proof.
  do 2 eexists. split; [reflexivity|]. split_and!; try reflexivity.
  by apply run_script_no_request.
Qed.

(** C16. From any widget state, typing a non-empty question and pressing Submit
    triggers exactly one run, which passes the guard of line 70 with that question
    and the selected model and sliders. Once configuration succeeds, the run's
    process state is the one [generate_response] leaves on the reset history. *)
Theorem submit_reaches_generate clear ws q :
  q <> "" ->
  exists ui, (widget_run clear ws [TypeText q; PressSubmit]).2 = [ui] /\
    ui = ui_of ws q true /\ ui_submit ui && str_truthy (ui_text ui) = true /\
    forall w w1, startup secrets w = (w1, Ok tt) ->
      run_world (run_script B complete secrets ui (mk_run w [])).1 =
        (generate_response B complete q (ui_engine ui) (ui_temperature ui) (ui_max_token ui)
                           (set_history [] w1)).1.
Proof.
  intros Hq. eexists. split; [reflexivity|]. split; [reflexivity|].
  assert (Hg : ui_submit (ui_of ws q true) && str_truthy q = true).
  { simpl. unfold str_truthy. by destruct (String.eqb_spec q ""). }
  split; [exact Hg|]. intros w w1 Hs.
  rewrite (run_script_started B complete secrets _ w w1 Hs). cbv zeta. simpl in *. rewrite Hg.
  by destruct (generate_response _ _ _ _ _ _ _) as [w3 [a|e]].
Qed.

(** C17. Changing the model or a slider, and typing without submitting, never calls
    the service: over any sequence of such actions, the runs Streamlit triggers
    leave the log of service calls unchanged. *)
Theorem sidebar_no_request clear ws es w :
  Forall (fun e => e <> PressSubmit) es ->
  llm_log (run_session B complete secrets (widget_run clear ws es).2 w).1 = llm_log w.
Proof. intros Hes. by apply run_session_no_request, widget_run_no_submit. Qed.

End Session.

(** ** The theorems at concrete inputs *)

Lemma widgets_invariant_witness :
  reachable form_clears
    (widget_step form_clears (widget_step form_clears widgets_init (TypeText "Hi")).1
                 PressSubmit).1 /\
  ws_valid form_clears
    (widget_step form_clears (widget_step form_clears widgets_init (TypeText "Hi")).1
                 PressSubmit).1.
Proof.
  assert (H : reachable form_clears
    (widget_step form_clears (widget_step form_clears widgets_init (TypeText "Hi")).1
                 PressSubmit).1) by (repeat constructor).
  split; [exact H | exact (widgets_invariant _ _ H)].
Defined.

Lemma widget_inputs_in_range_witness :
  Forall (fun e => event_valid e = true)
    [SelectModel 3; SetTemperature 100; SetMaxTokens 500; TypeText "Hi"; PressSubmit] /\
  Forall ui_in_range
    (widget_run form_clears widgets_init
       [SelectModel 3; SetTemperature 100; SetMaxTokens 500; TypeText "Hi"; PressSubmit]).2.
Proof.
  assert (H : Forall (fun e => event_valid e = true)
    [SelectModel 3; SetTemperature 100; SetMaxTokens 500; TypeText "Hi"; PressSubmit])
    by (repeat constructor).
  split; [exact H | exact (widget_inputs_in_range _ _ H)].
Defined.

Lemma submit_reaches_generate_witness :
  "What is 2+2?" <> "" /\
  exists ui, (widget_run form_clears widgets_init [TypeText "What is 2+2?"; PressSubmit]).2
             = [ui] /\
    ui = ui_of widgets_init "What is 2+2?" true /\ ui_submit ui && str_truthy (ui_text ui) = true /\
    forall w w1, startup example_secrets w = (w1, Ok tt) ->
      run_world (run_script example_builtins (echo_completion "4") example_secrets ui
                            (mk_run w [])).1 =
        (generate_response example_builtins (echo_completion "4") "What is 2+2?" (ui_engine ui)
           (ui_temperature ui) (ui_max_token ui) (set_history [] w1)).1.
Proof.
  assert (H : "What is 2+2?" <> "") by discriminate.
  split; [exact H | exact (submit_reaches_generate example_builtins (echo_completion "4")
                             example_secrets form_clears widgets_init _ H)].
Defined.

Lemma sidebar_no_request_witness :
  Forall (fun e => e <> PressSubmit) [SelectModel 1; TypeText "Hi"; SetTemperature 20] /\
  llm_log (run_session example_builtins (echo_completion "4") example_secrets
             (widget_run form_clears widgets_init
                [SelectModel 1; TypeText "Hi"; SetTemperature 20]).2 example_world).1
  = llm_log example_world.
Proof.
  assert (H : Forall (fun e => e <> PressSubmit) [SelectModel 1; TypeText "Hi"; SetTemperature 20])
    by (repeat constructor; discriminate).
  split; [exact H | exact (sidebar_no_request example_builtins (echo_completion "4")
                             example_secrets _ _ _ example_world H)].
Defined.

(** A session that types a question and presses Submit twice: the first run shows
    the reply, the second the message for an empty question. *)
Example double_submit_session :
  map fst (app_session example_builtins (echo_completion "4") example_secrets
             [TypeText "What is 2+2?"; PressSubmit; PressSubmit] example_world).2
  = [page_prefix ++ [Write ("**Assistant:** " +:+ "4")];
     page_prefix ++ [Write "Please provide a question."]].
Proof. vm_compute. reflexivity. Qed.
