(* ===== verification/Sessions.v ===== *)
(** * Several browser sessions on one server process

    Spec section 5 warns that a multi-user rebuild must give each session its own
    transcript. Streamlit serves every browser tab as a session of its own: each
    has its own widget values, and each interaction reruns src/app.py for that
    session, in a fresh [__main__] module, on the one process state (os.environ and
    the requests already sent). A [schedule] lists the actions of all sessions in
    the order the server handles them; [sessions_run] keeps one [WidgetState] per
    session, and [server] executes every run the actions trigger, one after the
    other, on the shared [World]. *)

From Stdlib Require QArith.
From S2P Require Import Prelude PyFormat History Chain Generate Config App Widgets.

Local Open Scope py_scope.

(** An action of one session, by the session's number. *)
Definition schedule : Type := list (nat * event).

(** The widget values of every session. *)
Definition session_states : Type := nat -> WidgetState.

Definition set_session (ss : session_states) (i : nat) (ws : WidgetState) : session_states :=
  fun j => if Nat.eqb j i then ws else ss j.

(** The actions of a schedule, each applied to the widgets of its own session: the
    final widget values and the runs, tagged with their session. *)
Fixpoint sessions_run (clear : bool) (ss : session_states) (sched : schedule)
    : session_states * list (nat * UiInput) :=
  match sched with
  | [] => (ss, [])
  | (i, e) :: rest =>
      let '(ws', run) := widget_step clear (ss i) e in
      let '(ss', runs) := sessions_run clear (set_session ss i ws') rest in
      (ss', ((fun ui => (i, ui)) <$> option_list run) ++ runs)
  end.

(** The server: every session starts from the widget defaults, and the runs are
    executed in the order of the schedule on one process state. *)
Definition server (B : Builtins) (complete : completion) (secrets : gmap string string)
    (sched : schedule) (w : World) : World * list (list element * res unit) :=
  run_session B complete secrets (snd <$> (sessions_run form_clears (fun _ => widgets_init)
                                                         sched).2) w.

(** Every session's draft is empty or was typed by that session in [past]. *)
Definition drafts_typed (past : schedule) (ss : session_states) : Prop :=
  forall j, ws_draft (ss j) = "" \/ (j, TypeText (ws_draft (ss j))) ∈ past.

(** ** Each session's runs use only what that session typed *)

Lemma widget_step_submit clear ws e ui :
  (widget_step clear ws e).2 = Some ui -> ui_submit ui = true ->
  e = PressSubmit /\ ui_text ui = ws_draft ws.
Proof. destruct e; simpl; intros [= <-]; simpl; done. Qed.

Lemma widget_step_draft clear ws e :
  ws_draft (widget_step clear ws e).1 = ws_draft ws \/
  ws_draft (widget_step clear ws e).1 = "" \/
  e = TypeText (ws_draft (widget_step clear ws e).1).
Proof. destruct e; simpl; auto. destruct clear; simpl; auto. Qed.

Lemma drafts_typed_step past ss i e clear :
  drafts_typed past ss ->
  drafts_typed (past ++ [(i, e)]) (set_session ss i (widget_step clear (ss i) e).1).
Proof.
  intros Hd j. unfold set_session. destruct (Nat.eqb_spec j i) as [->|Hne].
  - destruct (widget_step_draft clear (ss i) e) as [Heq | [Heq | Heq]].
    + rewrite Heq. destruct (Hd i) as [? | Hin]; [by left | right; set_solver].
    + by left.
    + right. rewrite <- Heq. set_solver.
  - destruct (Hd j) as [? | Hin]; [by left | right; set_solver].
Qed.

Lemma sessions_run_submissions clear ss sched past :
  drafts_typed past ss ->
  forall i ui, (i, ui) ∈ (sessions_run clear ss sched).2 -> ui_submit ui = true ->
  (ui_text ui = "" \/ (i, TypeText (ui_text ui)) ∈ past ++ sched) /\ (i, PressSubmit) ∈ sched.
Proof.
  revert ss past. induction sched as [|[i e] rest IH]; intros ss past Hd j ui Hin Hsub;
    simpl in Hin; [set_solver|].
  pose proof (drafts_typed_step past ss i e clear Hd) as Hd'.
  pose proof (widget_step_submit clear (ss i) e) as Hs.
  destruct (widget_step clear (ss i) e) as [ws' run] eqn:Estep. simpl in Hd'.
  specialize (IH (set_session ss i ws') (past ++ [(i, e)]) Hd').
  destruct (sessions_run clear (set_session ss i ws') rest) as [ss' runs] eqn:Erest.
  simpl in Hin. apply elem_of_app in Hin as [Hin | Hin].
  - destruct run as [ui'|]; simpl in Hin; [|set_solver].
    apply list_elem_of_singleton in Hin. simplify_eq.
    destruct (Hs _ eq_refl Hsub) as [-> Ht]. rewrite Ht.
    split; [|set_solver]. destruct (Hd i) as [? | ?]; [by left | right; set_solver].
  - destruct (IH j ui Hin Hsub) as [Ht Hp]. split; [|set_solver].
    rewrite <- app_assoc in Ht. by destruct Ht; [left | right].
Qed.

Section Server.
Context (B : Builtins) (complete : completion) (secrets : gmap string string).

(** Over any sequence of runs, each request sent is the prompt of the question of
    a run that was a submission with a non-empty question. *)
Lemma run_session_own uis w :
  exists extra, llm_log (run_session B complete secrets uis w).1 = llm_log w ++ extra /\
    Forall (fun c => exists ui, ui ∈ uis /\ ui_submit ui = true /\ ui_text ui <> "" /\
                                question_prompt B (ui_text ui) c.2) extra.
Proof.
  revert w. induction uis as [|ui uis IH]; intros w; simpl; [exists []; by rewrite app_nil_r|].
  pose proof (run_script_own B complete secrets ui w) as Hr.
  destruct (run_script B complete secrets ui (mk_run w [])) as [r x]. simpl in Hr.
  destruct (IH (run_world r)) as (e2 & H2 & F2).
  destruct (run_session _ _ _ uis _) as [w' outs]. simpl in *.
  assert (F2' : Forall (fun c => exists ui', ui' ∈ ui :: uis /\ ui_submit ui' = true /\
                  ui_text ui' <> "" /\ question_prompt B (ui_text ui') c.2) e2).
  { eapply Forall_impl; [exact F2|]. intros c (ui' & ? & ?). exists ui'. set_solver. }
  destruct Hr as [Hl | (Hsub & Ht & cfg & msgs & Hl & Hq)].
  - exists e2. by rewrite H2, Hl.
  - exists ((cfg, msgs) :: e2). rewrite H2, Hl, <- app_assoc. split; [done|].
    constructor; [|done]. exists ui. split_and!; [set_solver | done | done | done].
Qed.

(** C18. Sessions are isolated: whatever the interleaving of the actions of any
    number of browser sessions, every request the server sends is the system
    message and one question, typed by the session that pressed Submit, and
    nothing from another session or from an earlier run. *)
Theorem server_sessions_isolated sched w :
  exists extra, llm_log (server B complete secrets sched w).1 = llm_log w ++ extra /\
    Forall (fun c => exists i q, q <> "" /\ (i, TypeText q) ∈ sched /\
                                 (i, PressSubmit) ∈ sched /\ question_prompt B q c.2) extra.
Proof.
  unfold server.
  destruct (run_session_own (snd <$> (sessions_run form_clears (fun _ => widgets_init) sched).2) w)
    as (extra & Hl & F).
  exists extra. split; [done|]. eapply Forall_impl; [exact F|].
  intros c (ui & Hin & Hsub & Ht & Hq). apply list_elem_of_fmap in Hin as ([i ui'] & -> & Hin).
  simpl in *. exists i, (ui_text ui'). split_and!; try done.
  all: destruct (sessions_run_submissions form_clears (fun _ => widgets_init) sched []
                   (fun j => or_introl eq_refl) i ui' Hin Hsub) as [[? | ?] ?]; done.
Qed.

End Server.

(** Two sessions interleaved: each request carries only its own session's
    question. *)
Example two_sessions_interleaved :
  map snd (llm_log (server example_builtins (echo_completion "4") example_secrets
    [(1, TypeText "What is 2+2?"); (2, TypeText "What is 3+3?"); (1, PressSubmit);
     (2, PressSubmit)] example_world).1) =
  [[mk_message SystemMessage "You are a helpful Assistant";
    mk_message HumanMessage "What is 2+2?"];
   [mk_message SystemMessage "You are a helpful Assistant";
    mk_message HumanMessage "What is 3+3?"]].
Proof. vm_compute. reflexivity. Qed.
